(** * PolarsDataSplitter

    A shallow embedding of
    great_expectations/execution_engine/split_and_sample/polars_data_splitter.py.
    Dataframes are tables of typed columns, Python exceptions are values of
    an error type, and every splitter method is a function into [result].
    Of the dataframe library, the cast that [series == value] makes and
    the way [series.apply] treats nulls and failing lambdas are written
    out; what is left of it is a parameter, as are [hashlib], [dateutil]
    and the formatting functions.
    The path and root-field functions of
    great_expectations/datasource/fluent/snowflake_datasource.py follow. *)

From Stdlib Require Import ZArith List String Ascii Bool Lia Permutation.
Import ListNotations.
Local Open Scope string_scope.
Local Open Scope Z_scope.
Set Warnings "-register-all,-notation-for-abbreviation".

(** ** Exceptions and the error monad *)

(** [ColumnNotFoundError] is the error of [df[name]] for a name that is no
    column (older versions of the dataframe library call it
    [NotFoundError]); [PanicException] is what the library raises when a
    lambda fails inside [apply] on a temporal column. *)
Inductive exn : Type :=
| KeyError (key : string)
| ColumnNotFoundError (column : string)
| ZeroDivisionError
| OverflowError
| TypeError
| AttributeError
| ParserError
| PanicException
| ValueError (msg : string)
| ExecutionEngineError (msg : string)
| InvalidConfigError (msg : string).

Inductive result (A : Type) : Type :=
| Ok (a : A)
| Raise (e : exn).
Arguments Ok {A} a.
Arguments Raise {A} e.

Definition bind {A B} (r : result A) (k : A -> result B) : result B :=
  match r with
  | Ok a => k a
  | Raise e => Raise e
  end.

Notation "x <- r ;; k" := (bind r (fun x => k))
  (at level 61, r at next level, right associativity).

(** [traverse f l] runs [f] on the elements from left to right and stops at
    the first exception, as a Python loop does. *)
Fixpoint traverse {A B} (f : A -> result B) (l : list A) : result (list B) :=
  match l with
  | [] => Ok []
  | a :: l' => b <- f a ;; bs <- traverse f l' ;; Ok (b :: bs)
  end.

(** The exceptions the splitter raises on purpose, with a message of its
    own, as opposed to the faults of the interpreter and of the libraries. *)
Definition is_domain_error (e : exn) : bool :=
  match e with
  | ValueError _ | ExecutionEngineError _ | InvalidConfigError _ => true
  | _ => false
  end.

(** ** Python values *)

Record date := mkDate { d_year : Z; d_month : Z; d_day : Z }.

Record datetime := mkDatetime {
  dt_date : date;
  dt_hour : Z; dt_minute : Z; dt_second : Z; dt_microsecond : Z }.

(** What a cell of a dataframe holds once it reaches Python. Floats and
    booleans are left out, here and among the batch identifiers. *)
Inductive scalar : Type :=
| SInt (z : Z)
| SStr (s : string)
| SDate (d : date)
| SDatetime (d : datetime).

(** What a batch identifier may be: a scalar, [None], or a nested dict. *)
Inductive pyvalue : Type :=
| PNone
| PInt (z : Z)
| PStr (s : string)
| PDate (d : date)
| PDatetime (d : datetime)
| PDict (items : list (string * pyvalue)).

(** Python dictionaries keep insertion order; keys are unique. *)
Definition dict (K V : Type) : Type := list (K * V).

Section Dict.
Context {K V : Type} (eqb : K -> K -> bool).

Fixpoint dict_get (d : dict K V) (k : K) : option V :=
  match d with
  | [] => None
  | (k', v) :: d' => if eqb k k' then Some v else dict_get d' k
  end.

(** [d[k] = v]: an existing key keeps its position. *)
Fixpoint dict_set (d : dict K V) (k : K) (v : V) : dict K V :=
  match d with
  | [] => [(k, v)]
  | (k', v') :: d' =>
      if eqb k k' then (k', v) :: d' else (k', v') :: dict_set d' k v
  end.
End Dict.

Definition batch_identifiers_t : Type := dict string pyvalue.

(** [batch_identifiers[key]] *)
Definition getitem (d : dict string pyvalue) (key : string) : result pyvalue :=
  match dict_get String.eqb d key with
  | Some v => Ok v
  | None => Raise (KeyError key)
  end.

(** [batch_identifiers.get(key)] *)
Definition get (d : dict string pyvalue) (key : string) : pyvalue :=
  match dict_get String.eqb d key with
  | Some v => v
  | None => PNone
  end.

(** Truth value of an object, as [if not value] tests it. *)
Definition truthy (v : pyvalue) : bool :=
  match v with
  | PNone => false
  | PInt z => negb (z =? 0)
  | PStr s => negb (String.eqb s EmptyString)
  | PDate _ | PDatetime _ => true
  | PDict items => match items with [] => false | _ => true end
  end.

Definition date_eqb (a b : date) : bool :=
  (d_year a =? d_year b) && (d_month a =? d_month b) && (d_day a =? d_day b).

Definition datetime_eqb (a b : datetime) : bool :=
  date_eqb (dt_date a) (dt_date b) && (dt_hour a =? dt_hour b)
  && (dt_minute a =? dt_minute b) && (dt_second a =? dt_second b)
  && (dt_microsecond a =? dt_microsecond b).

(** [x == v] between two Python objects, as the row-level lambdas
    evaluate it: objects of different types are unequal, and the
    comparison itself never raises. *)
Definition py_eq (x : scalar) (v : pyvalue) : bool :=
  match x, v with
  | SInt a, PInt b => a =? b
  | SStr a, PStr b => String.eqb a b
  | SDate a, PDate b => date_eqb a b
  | SDatetime a, PDatetime b => datetime_eqb a b
  | _, _ => false
  end.

(** ** Strings *)

(** [contains sub s]: [sub] occurs in [s]. *)
Definition contains (sub s : string) : Prop :=
  exists pre post, s = (pre ++ sub ++ post)%string.

Fixpoint drop_chars (n : nat) (s : string) : string :=
  match n, s with
  | O, _ => s
  | S n', String _ s' => drop_chars n' s'
  | S _, EmptyString => EmptyString
  end.

(** [s[start:]], with Python's rules for a negative or too large start. *)
Definition slice_from (start : Z) (s : string) : string :=
  let len := Z.of_nat (String.length s) in
  let lo := if start <? 0 then Z.max (len + start) 0 else Z.min start len in
  drop_chars (Z.to_nat lo) s.

Definition digit_char (d : Z) : ascii := ascii_of_nat (48 + Z.to_nat d).

(** The last [width] decimal digits of [n], most significant first. *)
Fixpoint digits (width : nat) (n : Z) (acc : string) : string :=
  match width with
  | O => acc
  | S w => digits w (n / 10) (String (digit_char (n mod 10)) acc)
  end.

Definition zero_padded (width : nat) (n : Z) : string :=
  digits width n EmptyString.

(** [str(n)] for an int. *)
Definition str_of_int (n : Z) : string :=
  let body := digits (S (Z.to_nat (Z.log2 (Z.abs n)))) (Z.abs n) EmptyString in
  let fix strip (fuel : nat) (s : string) : string :=
    match fuel, s with
    | S f, String "0" (String c s') => strip f (String c s')
    | _, _ => s
    end in
  let body := strip (String.length body) body in
  if n <? 0 then String "-" body else body.

Definition str_of_date (d : date) : string :=
  (zero_padded 4 (d_year d) ++ "-" ++ zero_padded 2 (d_month d) ++ "-"
   ++ zero_padded 2 (d_day d))%string.

Definition str_of_datetime (t : datetime) : string :=
  (str_of_date (dt_date t) ++ " " ++ zero_padded 2 (dt_hour t) ++ ":"
   ++ zero_padded 2 (dt_minute t) ++ ":" ++ zero_padded 2 (dt_second t)
   ++ (if (dt_microsecond t =? 0)%Z then EmptyString
       else "." ++ zero_padded 6 (dt_microsecond t)))%string.

(** A cell is a value or null; a null reaches Python as [None]. *)
Notation cell := (option scalar).

(** [str(x)] *)
Definition py_str (x : cell) : string :=
  match x with
  | Some (SInt z) => str_of_int z
  | Some (SStr s) => s
  | Some (SDate d) => str_of_date d
  | Some (SDatetime t) => str_of_datetime t
  | None => "None"
  end.

Definition lower_char (c : ascii) : ascii :=
  let n := nat_of_ascii c in
  if (65 <=? n)%nat && (n <=? 90)%nat then ascii_of_nat (n + 32) else c.

(** [s.lower()] on ASCII text. *)
Fixpoint lower (s : string) : string :=
  match s with
  | EmptyString => EmptyString
  | String c s' => String (lower_char c) (lower s')
  end.

(** ** Arithmetic of the row-level lambdas *)

(** A finite binary64 number, (-1)^neg * mant * 2^exp. *)
Record pyfloat := mkFloat { f_neg : bool; f_mant : Z; f_exp : Z }.

Definition pow2 (k : Z) : Z := 2 ^ Z.max 0 k.

(** The integer nearest to [a / b], ties to even, for [0 <= a] and [0 < b]. *)
Definition round_half_even (a b : Z) : Z :=
  let q := a / b in
  let r := a mod b in
  if 2 * r <? b then q
  else if b <? 2 * r then q + 1
  else if Z.even q then q else q + 1.

(** [a / b] on ints: the quotient correctly rounded to a double, as
    CPython computes it; the mantissa gets 53 bits, fewer on the
    subnormal range. *)
Definition int_truediv (a b : Z) : result pyfloat :=
  if b =? 0 then Raise ZeroDivisionError
  else if a =? 0 then Ok (mkFloat (b <? 0) 0 0)
  else
    let A := Z.abs a in
    let B := Z.abs b in
    let e0 := Z.log2 A - Z.log2 B in
    let e := if B * pow2 e0 <=? A * pow2 (- e0) then e0 else e0 - 1 in
    let sh := Z.max (e - 52) (-1074) in
    let m := round_half_even (A * pow2 (- sh)) (B * pow2 sh) in
    if (0 <=? sh) && (2 ^ 1024 <=? m * pow2 sh) then Raise OverflowError
    else Ok (mkFloat (xorb (a <? 0) (b <? 0)) m sh).

(** [int(f)]: truncation toward zero. *)
Definition py_int (f : pyfloat) : Z :=
  let t := if 0 <=? f_exp f then f_mant f * 2 ^ f_exp f
           else f_mant f / 2 ^ (- f_exp f) in
  if f_neg f then - t else t.

(** [x / divisor] *)
Definition py_truediv (x : cell) (divisor : Z) : result pyfloat :=
  match x with
  | Some (SInt a) => int_truediv a divisor
  | _ => Raise TypeError
  end.

(** ** Dataframes *)

Inductive dtype : Type := Int32 | UInt32 | Int64 | Utf8 | Date | Datetime.

Record Series := mkSeries { s_dtype : dtype; s_values : list cell }.

Record DataFrame := mkDataFrame {
  schema : list (string * dtype);
  rows : list (list cell) }.

Definition in_int64 (z : Z) : bool := (- 2 ^ 63 <=? z) && (z <? 2 ^ 63).

(** The integers a column of the type can hold. *)
Definition in_range (t : dtype) (z : Z) : bool :=
  match t with
  | Int32 => (- 2 ^ 31 <=? z) && (z <? 2 ^ 31)
  | UInt32 => (0 <=? z) && (z <? 2 ^ 32)
  | Int64 => in_int64 z
  | Utf8 | Date | Datetime => false
  end.

Definition has_dtype (t : dtype) (c : cell) : bool :=
  match c, t with
  | None, _ => true
  | Some (SInt z), (Int32 | UInt32 | Int64) => in_range t z
  | Some (SStr _), Utf8 | Some (SDate _), Date
  | Some (SDatetime _), Datetime => true
  | _, _ => false
  end.

Fixpoint row_typed (sch : list (string * dtype)) (r : list cell) : bool :=
  match sch, r with
  | [], [] => true
  | (_, t) :: sch', c :: r' => has_dtype t c && row_typed sch' r'
  | _, _ => false
  end.

(** Every row has one cell per column, of the column's type. *)
Definition well_formed (df : DataFrame) : Prop :=
  forall r, In r (rows df) -> row_typed (schema df) r = true.

Fixpoint find_column (sch : list (string * dtype)) (name : string) (i : nat)
  : option (nat * dtype) :=
  match sch with
  | [] => None
  | (n, t) :: sch' =>
      if String.eqb name n then Some (i, t) else find_column sch' name (S i)
  end.

(** [df[column_name]] *)
Definition df_column (df : DataFrame) (column_name : string) : result Series :=
  match find_column (schema df) column_name 0 with
  | Some (i, t) => Ok (mkSeries t (map (fun r => nth i r None) (rows df)))
  | None => Raise (ColumnNotFoundError column_name)
  end.

(** The entries of [l] at which the mask is true; null counts as false. *)
Fixpoint select {A} (mask : list (option bool)) (l : list A) : list A :=
  match mask, l with
  | Some true :: mask', a :: l' => a :: select mask' l'
  | _ :: mask', _ :: l' => select mask' l'
  | _, _ => []
  end.

(** [df[mask]] for a boolean series [mask] *)
Definition df_filter (df : DataFrame) (mask : list (option bool)) : DataFrame :=
  mkDataFrame (schema df) (select mask (rows df)).

(** The cell is not null. *)
Definition has_value (c : cell) : bool :=
  match c with Some _ => true | None => false end.

Definition temporal (t : dtype) : bool :=
  match t with Date | Datetime => true | _ => false end.

(** What [series.apply(f)] returns. The type of the new series is taken
    from what [f] returns; when [f] was never called the new series is
    made of nulls and keeps a type [t] of its own, that of the column. *)
Inductive applied (B : Type) : Type :=
| Typed (values : list (option B))
| Untyped (t : dtype).
Arguments Typed {B} values.
Arguments Untyped {B} t.

(** ** The libraries around the splitter

    What the methods call and this module does not define: the attribute
    table of [hashlib], the date parser of [dateutil], printf-style
    formatting (which is what [%] means when the left operand is a
    string), [strftime], [int] of a string and, of the dataframe library,
    the cases that the definitions below do not write out. *)
Class PyEnv : Type := {
  (** [getattr(hashlib, name)]; the function stands for
      [lambda b: attribute(b).hexdigest()]. *)
  hashlib : string -> option (string -> result string);
  (** [dateutil.parser.parse] *)
  parse : string -> result datetime;
  (** [format % n] *)
  str_format : string -> Z -> result string;
  (** [x.strftime(format)] *)
  strftime : scalar -> string -> result string;
  (** [int(text)] *)
  int_of_str : string -> result Z;
  (** [series == value] for a value that is not of the column's type and
      whose cast is not written out in [comparand]: the test the cells
      are put to, or the exception of the cast. *)
  compare_other : dtype -> pyvalue -> result (scalar -> bool);
  (** Whether [series.apply(f)], on a column that is not temporal, turns
      an exception that [f] raises after its first result into a null,
      or passes it on. *)
  later_faults_are_nulls : bool;
  (** [series.apply(f)] on a temporal column without rows. *)
  apply_without_rows : forall B : Type, result (applied B);
  (** [df[series]] for the untyped series of [apply], when its type is
      not [Int64]: the rows taken, or an exception. *)
  index_untyped : dtype -> result (list (option bool));
  (** [series == value] for the untyped series of [apply]. *)
  compare_untyped : dtype -> pyvalue -> result (list (option bool));
  (** The message of the [ValueError] of the [dt] accessors. *)
  accessor_message : string
}.

(** [x % mod]: on ints the remainder takes the sign of [mod]. *)
Definition py_mod `{PyEnv} (x : cell) (mod_ : Z) : result scalar :=
  match x with
  | Some (SInt a) => if mod_ =? 0 then Raise ZeroDivisionError
                     else Ok (SInt (a mod mod_))
  | Some (SStr s) => r <- str_format s mod_ ;; Ok (SStr r)
  | _ => Raise TypeError
  end.

(** [x.strftime(format)]; [None] has no such method. *)
Definition py_strftime `{PyEnv} (x : cell) (format : string) : result string :=
  match x with
  | Some v => strftime v format
  | None => Raise AttributeError
  end.

(** ** Series *)

(** [f] on a cell after the first value of a column that is not
    temporal: a null is skipped. *)
Definition later_value `{PyEnv} {B} (f : cell -> result B) (c : cell)
  : result (option B) :=
  match c with
  | None => Ok None
  | Some _ =>
      match f c with
      | Ok b => Ok (Some b)
      | Raise e => if later_faults_are_nulls then Ok None else Raise e
      end
  end.

(** [apply] on the cells of a column that is not temporal: the nulls
    before the first value are skipped, the first value gives the type
    of the result, and an exception of [f] there ends the call. [None]
    when the column has no value. *)
Fixpoint apply_from_first_value `{PyEnv} {B} (f : cell -> result B)
    (cells : list cell) : result (option (list (option B))) :=
  match cells with
  | [] => Ok None
  | None :: cells' =>
      values <- apply_from_first_value f cells' ;;
      Ok (option_map (cons None) values)
  | Some x :: cells' =>
      b <- f (Some x) ;;
      values <- traverse (later_value f) cells' ;;
      Ok (Some (Some b :: values))
  end.

(** [series.apply(f)]. On a temporal column [f] is called on every cell,
    [None] for a null, and an exception of [f] ends the call in a
    [PanicException]. *)
Definition series_apply `{PyEnv} {B} (f : cell -> result B) (s : Series)
  : result (applied B) :=
  if temporal (s_dtype s)
  then
    match s_values s with
    | [] => apply_without_rows B
    | _ :: _ =>
        match traverse f (s_values s) with
        | Ok values => Ok (Typed (map Some values))
        | Raise _ => Raise PanicException
        end
    end
  else
    values <- apply_from_first_value f (s_values s) ;;
    Ok match values with
       | Some values => Typed values
       | None => Untyped (s_dtype s)
       end.

(** [df[matching_rows]] for the result of [apply]: a boolean series is a
    mask, and an untyped series of 64-bit integers is no index. *)
Definition df_getitem `{PyEnv} (df : DataFrame) (matching_rows : applied bool)
  : result DataFrame :=
  match matching_rows with
  | Typed mask => Ok (df_filter df mask)
  | Untyped Int64 => Raise TypeError
  | Untyped t => mask <- index_untyped t ;; Ok (df_filter df mask)
  end.

(** The test [fun x => x == v]. *)
Definition equals (v : pyvalue) (x : scalar) : bool := py_eq x v.

(** What [series == value] compares the cells of a column of type [t]
    with. The library first makes [value] an object of the Python type of
    the column, [int(value)] for an integer column and [str(value)] for a
    text column, which may raise. Written out: a value that already has
    the type, [int] of text and of [None], [str] of an int. *)
Definition comparand `{PyEnv} (t : dtype) (value : pyvalue)
  : result (scalar -> bool) :=
  match t, value with
  | (Int32 | UInt32 | Int64), PInt z =>
      if in_range t z then Ok (equals (PInt z)) else compare_other t value
  | (Int32 | UInt32 | Int64), PStr text =>
      z <- int_of_str text ;;
      if in_range t z then Ok (equals (PInt z)) else compare_other t (PInt z)
  | (Int32 | UInt32 | Int64), PNone => Raise TypeError
  | Utf8, PStr s => Ok (equals (PStr s))
  | Utf8, PInt z =>
      if in_int64 z then Ok (equals (PStr (str_of_int z)))
      else compare_other t value
  | Date, PDate d => Ok (equals (PDate d))
  | _, _ => compare_other t value
  end.

(** [series == value]: the cast of [value], then the comparison cell by
    cell; a null cell compares to null. *)
Definition series_eq `{PyEnv} (s : Series) (value : pyvalue)
  : result (list (option bool)) :=
  test <- comparand (s_dtype s) value ;;
  Ok (map (option_map test) (s_values s)).

(** ** Date parts *)

(** Modelled from the spec: the enumeration [DatePart] of data_splitter.py,
    which this module imports; its members are the ones the module and
    the spec name, each with its lower-case text value. *)
Inductive DatePart : Type := YEAR | MONTH | DAY.

(** Modelled from the spec: the text value of a member. *)
Definition DatePart_value (p : DatePart) : string :=
  match p with YEAR => "year" | MONTH => "month" | DAY => "day" end.

Definition DatePart_eqb (p q : DatePart) : bool :=
  match p, q with
  | YEAR, YEAR | MONTH, MONTH | DAY, DAY => true
  | _, _ => false
  end.

(** Modelled from the spec: [DatePart(text)], the member with that value. *)
Definition DatePart_of_value (text : string) : option DatePart :=
  if String.eqb text "year" then Some YEAR
  else if String.eqb text "month" then Some MONTH
  else if String.eqb text "day" then Some DAY
  else None.

(** An entry of a [date_parts] argument: an enum member or a string. *)
Inductive date_part_arg : Type :=
| Member (p : DatePart)
| Text (s : string).

Definition date_attr (p : DatePart) (d : date) : Z :=
  match p with YEAR => d_year d | MONTH => d_month d | DAY => d_day d end.

Definition date_part_cell (p : DatePart) (c : cell) : cell :=
  match c with
  | Some (SDate d) => Some (SInt (date_attr p d))
  | Some (SDatetime t) => Some (SInt (date_attr p (dt_date t)))
  | _ => None
  end.

(** The type of the series an accessor returns. *)
Definition part_dtype (p : DatePart) : dtype :=
  match p with YEAR => Int32 | MONTH | DAY => UInt32 end.

(** [getattr(series.dt, date_part)()]: only temporal columns have the
    accessors. *)
Definition series_dt `{PyEnv} (p : DatePart) (s : Series) : result Series :=
  if temporal (s_dtype s)
  then Ok (mkSeries (part_dtype p) (map (date_part_cell p) (s_values s)))
  else Raise (ValueError accessor_message).

(** A Python [for] loop that rebinds one variable. *)
Fixpoint for_each {A S} (body : S -> A -> result S) (l : list A) (s : S)
  : result S :=
  match l with
  | [] => Ok s
  | a :: l' => s' <- body s a ;; for_each body l' s'
  end.

(** ** The base class

    [PolarsDataSplitter] inherits three helpers from [DataSplitter]; the
    methods below are written against this interface. *)
Class DataSplitter : Type := {
  _validate_date_parts : list date_part_arg -> result unit;
  _convert_date_parts : list date_part_arg -> result (list DatePart);
  _convert_datetime_batch_identifiers_to_date_parts_dict :
    pyvalue -> list DatePart -> result (dict DatePart pyvalue)
}.

(** ** PolarsDataSplitter *)

Section PolarsDataSplitter.
Context {env : PyEnv} {self : DataSplitter}.

Definition split_on_date_parts (df : DataFrame) (column_name : string)
    (batch_identifiers : batch_identifiers_t)
    (date_parts : list date_part_arg) : result DataFrame :=
  _ <- _validate_date_parts date_parts ;;
  date_parts <- _convert_date_parts date_parts ;;
  column_batch_identifiers <- getitem batch_identifiers column_name ;;
  date_parts_dict <-
    _convert_datetime_batch_identifiers_to_date_parts_dict
      column_batch_identifiers date_parts ;;
  for_each
    (fun df '(date_part, date_part_value) =>
       column <- df_column df column_name ;;
       part <- series_dt date_part column ;;
       mask <- series_eq part date_part_value ;;
       Ok (df_filter df mask))
    date_parts_dict df.

Definition split_on_year (df : DataFrame) (column_name : string)
    (batch_identifiers : batch_identifiers_t) : result DataFrame :=
  split_on_date_parts df column_name batch_identifiers [Member YEAR].

Definition split_on_year_and_month (df : DataFrame) (column_name : string)
    (batch_identifiers : batch_identifiers_t) : result DataFrame :=
  split_on_date_parts df column_name batch_identifiers
    [Member YEAR; Member MONTH].

Definition split_on_year_and_month_and_day (df : DataFrame)
    (column_name : string) (batch_identifiers : batch_identifiers_t)
  : result DataFrame :=
  split_on_date_parts df column_name batch_identifiers
    [Member YEAR; Member MONTH; Member DAY].


Definition split_on_column_value (df : DataFrame) (column_name : string)
    (batch_identifiers : batch_identifiers_t) : result DataFrame :=
  column <- df_column df column_name ;;
  value <- getitem batch_identifiers column_name ;;
  mask <- series_eq column value ;;
  Ok (df_filter df mask).

(** [date_format_string] defaults to ["%Y-%m-%d"]. The lambda returns
    text, so a typed result of [apply] is a text series. *)
Definition split_on_converted_datetime (df : DataFrame) (column_name : string)
    (batch_identifiers : batch_identifiers_t) (date_format_string : string)
  : result DataFrame :=
  column <- df_column df column_name ;;
  stringified_datetime_series <-
    series_apply (fun x => s <- py_strftime x date_format_string ;;
                           Ok (SStr s))
                 column ;;
  matching_string <- getitem batch_identifiers column_name ;;
  mask <-
    match stringified_datetime_series with
    | Typed values => series_eq (mkSeries Utf8 values) matching_string
    | Untyped t => compare_untyped t matching_string
    end ;;
  Ok (df_filter df mask).

Definition split_on_divided_integer (df : DataFrame) (column_name : string)
    (divisor : Z) (batch_identifiers : batch_identifiers_t)
  : result DataFrame :=
  matching_divisor <- getitem batch_identifiers column_name ;;
  column <- df_column df column_name ;;
  matching_rows <-
    series_apply
      (fun x => q <- py_truediv x divisor ;;
                Ok (py_eq (SInt (py_int q)) matching_divisor))
      column ;;
  df_getitem df matching_rows.

Definition split_on_mod_integer (df : DataFrame) (column_name : string)
    (mod_ : Z) (batch_identifiers : batch_identifiers_t) : result DataFrame :=
  matching_mod_value <- getitem batch_identifiers column_name ;;
  column <- df_column df column_name ;;
  matching_rows <-
    series_apply
      (fun x => r <- py_mod x mod_ ;; Ok (py_eq r matching_mod_value))
      column ;;
  df_getitem df matching_rows.

Definition missing_identifier_preamble : string :=
  ("In order for PolarsExecutionEngine to `_split_on_multi_column_values`, "
   ++ "all values in column_names must also exist in batch_identifiers. ")%string.

Definition missing_identifier_message (column_name : string) : string :=
  (missing_identifier_preamble ++ column_name
   ++ " was not found in batch_identifiers.")%string.

Definition split_on_multi_column_values (df : DataFrame)
    (column_names : list string) (batch_identifiers : batch_identifiers_t)
  : result DataFrame :=
  for_each
    (fun subset_df column_name =>
       let value := get batch_identifiers column_name in
       if negb (truthy value)
       then Raise (ValueError (missing_identifier_message column_name))
       else
         column <- df_column subset_df column_name ;;
         mask <- series_eq column value ;;
         Ok (df_filter subset_df mask))
    column_names df.

Definition invalid_hash_preamble : string :=
  ("The splitting method used with SparkDFExecutionEngine has a reference"
   ++ " to an invalid hash_function_name."
   ++ String (ascii_of_nat 10) "                        Reference to ")%string.

Definition invalid_hash_message (hash_function_name : string) : string :=
  (invalid_hash_preamble ++ hash_function_name
   ++ " cannot be found.")%string.

(** [hash_function_name] defaults to ["md5"]. *)
Definition split_on_hashed_column (df : DataFrame) (column_name : string)
    (hash_digits : Z) (batch_identifiers : batch_identifiers_t)
    (hash_function_name : string) : result DataFrame :=
  hash_method <-
    match hashlib hash_function_name with
    | Some h => Ok h
    | None => Raise (ExecutionEngineError
                       (invalid_hash_message hash_function_name))
    end ;;
  column <- df_column df column_name ;;
  matching_rows <-
    series_apply
      (fun x =>
         hexdigest <- hash_method (py_str x) ;;
         let suffix := slice_from (-1 * hash_digits) hexdigest in
         hash_value <- getitem batch_identifiers "hash_value" ;;
         Ok (py_eq (SStr suffix) hash_value))
      column ;;
  df_getitem df matching_rows.
End PolarsDataSplitter.

(** ** The helpers of the base class, from the spec *)

(** Modelled from the spec: a date part as the enum member it denotes;
    text is matched without regard to case. *)
Definition normalize_date_part (a : date_part_arg) : option DatePart :=
  match a with
  | Member p => Some p
  | Text s => DatePart_of_value (lower s)
  end.

(** The date part as the caller wrote it. *)
Definition date_part_text (a : date_part_arg) : string :=
  match a with
  | Member p => DatePart_value p
  | Text s => s
  end.

(** Modelled from the spec: errors carry the offending name. *)
Definition invalid_date_part_message (a : date_part_arg) : string :=
  (date_part_text a ++ " is not a valid DatePart")%string.

(** Modelled from the spec: [DataSplitter._validate_date_parts] of
    data_splitter.py, which is not among the sources. The requested date
    parts must be members of the supported enumeration; the first one
    that is not fails the call with a validation error naming it. *)
Definition spec_validate_date_parts (date_parts : list date_part_arg)
  : result unit :=
  _ <- traverse (fun a => match normalize_date_part a with
                          | Some _ => Ok tt
                          | None => Raise (InvalidConfigError
                                             (invalid_date_part_message a))
                          end) date_parts ;;
  Ok tt.

(** Modelled from the spec: [DataSplitter._convert_date_parts] of
    data_splitter.py, which is not among the sources. Case-insensitive
    strings become the canonical enum members. *)
Definition spec_convert_date_parts (date_parts : list date_part_arg)
  : result (list DatePart) :=
  traverse (fun a => match normalize_date_part a with
                     | Some p => Ok p
                     | None => Raise (ValueError (invalid_date_part_message a))
                     end) date_parts.

(** Modelled from the spec: the target integers read off one datetime,
    one entry per requested date part. *)
Definition date_parts_of_date (d : date) (date_parts : list DatePart)
  : dict DatePart pyvalue :=
  fold_left (fun acc p => dict_set DatePart_eqb acc p (PInt (date_attr p d)))
            date_parts [].

(** Modelled from the spec:
    [DataSplitter._convert_datetime_batch_identifiers_to_date_parts_dict]
    of data_splitter.py, which is not among the sources. Per requested
    date part, the target is taken from a nested per-part mapping, or
    extracted from a single datetime value, parsed first when it is text. *)
Definition spec_convert_datetime_batch_identifiers_to_date_parts_dict
    {env : PyEnv} (column_batch_identifiers : pyvalue)
    (date_parts : list DatePart) : result (dict DatePart pyvalue) :=
  match column_batch_identifiers with
  | PDict mapping =>
      for_each (fun acc p =>
                  v <- getitem mapping (DatePart_value p) ;;
                  Ok (dict_set DatePart_eqb acc p v))
               date_parts []
  | PDatetime t => Ok (date_parts_of_date (dt_date t) date_parts)
  | PDate d => Ok (date_parts_of_date d date_parts)
  | PStr text => t <- parse text ;;
                 Ok (date_parts_of_date (dt_date t) date_parts)
  | PNone | PInt _ => Raise TypeError
  end.

(** The base class with the helpers as the spec describes them. *)
Definition SpecDataSplitter {env : PyEnv} : DataSplitter := {|
  _validate_date_parts := spec_validate_date_parts;
  _convert_date_parts := spec_convert_date_parts;
  _convert_datetime_batch_identifiers_to_date_parts_dict :=
    spec_convert_datetime_batch_identifiers_to_date_parts_dict
|}.

(** ** A small environment and small tables for closed examples *)

Fixpoint byte_sum (s : string) : Z :=
  match s with
  | EmptyString => 0
  | String c s' => Z.of_nat (nat_of_ascii c) + byte_sum s'
  end.

(** The number a string of decimal digits writes, most significant
    digit first, after the digits read so far. *)
Fixpoint decimal (s : string) (read : Z) : option Z :=
  match s with
  | EmptyString => Some read
  | String c s' =>
      let n := nat_of_ascii c in
      if (48 <=? n)%nat && (n <=? 57)%nat
      then decimal s' (10 * read + Z.of_nat (n - 48))
      else None
  end.

(** One registered algorithm, a four-digit checksum; no parser, no string
    formatting, every date format read as [%Y-%m-%d], [int] of plain
    strings of digits only, and none of the further casts and cases of the
    dataframe library. The theorems below hold for every environment. *)
Definition sample_env : PyEnv := {|
  hashlib := fun name =>
    if String.eqb name "sum4"
    then Some (fun b => Ok (zero_padded 4 (byte_sum b)))
    else None;
  parse := fun _ => Raise ParserError;
  str_format := fun _ _ => Raise TypeError;
  strftime := fun x _ =>
    match x with
    | SDate d => Ok (str_of_date d)
    | SDatetime t => Ok (str_of_date (dt_date t))
    | _ => Raise AttributeError
    end;
  int_of_str := fun text =>
    match text, decimal text 0 with
    | String _ _, Some z => Ok z
    | _, _ => Raise (ValueError ("invalid literal for int() with base 10: '"
                                 ++ text ++ "'"))
    end;
  compare_other := fun _ _ => Raise TypeError;
  later_faults_are_nulls := true;
  apply_without_rows := fun _ => Raise TypeError;
  index_untyped := fun _ => Raise TypeError;
  compare_untyped := fun _ _ => Raise TypeError;
  accessor_message := "not a temporal column"
|}.

Definition ints_table (values : list Z) : DataFrame :=
  mkDataFrame [("n", Int64)] (map (fun z => [Some (SInt z)]) values).

(** The rows [{id:1, date:2021-05-01}] and [{id:2, date:2022-05-01}]. *)
Definition two_dates : DataFrame :=
  mkDataFrame [("id", Int64); ("date", Date)]
    [ [Some (SInt 1); Some (SDate (mkDate 2021 5 1))];
      [Some (SInt 2); Some (SDate (mkDate 2022 5 1))] ].


(** ** Notions the properties are stated with *)

(** What a mask entry selects. *)
Definition is_true (b : option bool) : bool :=
  match b with Some true => true | _ => false end.

(** [well_formed], decided. *)
Definition well_formedb (df : DataFrame) : bool :=
  forallb (row_typed (schema df)) (rows df).

(** The call ends in one of the splitter's own errors. *)
Definition raises_domain_error {A} (r : result A) : Prop :=
  exists e, r = Raise e /\ is_domain_error e = true.

(** Two outcomes that are the same value, or an exception both. *)
Definition alike {A} (r1 r2 : result A) : Prop :=
  match r1, r2 with
  | Ok a1, Ok a2 => a1 = a2
  | Raise _, Raise _ => True
  | _, _ => False
  end.

(** The value has the type of the column: an integer the column can
    hold, text for a text column, a date for a date column. *)
Definition same_type (t : dtype) (v : pyvalue) : bool :=
  match t, v with
  | (Int32 | UInt32 | Int64), PInt z => in_range t z
  | Utf8, PStr _ | Date, PDate _ => true
  | _, _ => false
  end.

(** The column holds integers. *)
Definition integral (t : dtype) : bool :=
  match t with Int32 | UInt32 | Int64 => true | _ => false end.

(** The row of this cell is kept by a mask made with [test]. *)
Definition cell_passes (test : scalar -> bool) (c : cell) : bool :=
  is_true (option_map test c).

(** The cell holds a value equal to [v]. *)
Definition cell_matches (c : cell) (v : pyvalue) : bool :=
  cell_passes (equals v) c.

(** The loop of [split_on_date_parts]. *)
Definition date_part_filters {env : PyEnv} (column_name : string)
    (date_parts_dict : dict DatePart pyvalue) (df : DataFrame)
  : result DataFrame :=
  for_each
    (fun df '(date_part, date_part_value) =>
       column <- df_column df column_name ;;
       part <- series_dt date_part column ;;
       mask <- series_eq part date_part_value ;;
       Ok (df_filter df mask))
    date_parts_dict df.

(** The tests the targets of the dict stand for, in the order of the
    dict, or the exception of the first target that cannot be cast. *)
Definition date_part_tests {env : PyEnv}
    (date_parts_dict : dict DatePart pyvalue)
  : result (list (DatePart * (scalar -> bool))) :=
  traverse (fun '(p, v) => test <- comparand (part_dtype p) v ;; Ok (p, test))
           date_parts_dict.

(** A row passes when each of its date parts passes its test. *)
Definition matches_all (i : nat) (tests : list (DatePart * (scalar -> bool)))
    (r : list cell) : bool :=
  forallb (fun '(p, test) => cell_passes test (date_part_cell p (nth i r None)))
          tests.

(** Each date part replaced by the enum member it denotes. *)
Definition canonical (date_parts : list date_part_arg) : list date_part_arg :=
  map (fun a => match normalize_date_part a with
                | Some p => Member p
                | None => a
                end) date_parts.

(** The batch identifiers [{date: {year: 2021, month: 5}}]. *)
Definition may_2021 : batch_identifiers_t :=
  [("date", PDict [("year", PInt 2021); ("month", PInt 5)])].

(** The elements of [l] whose key is [k]. *)
Definition class_of {A} (key : A -> Z) (l : list A) (k : Z) : list A :=
  filter (fun a => key a =? k) l.

(** [range(m)] *)
Definition range (m : Z) : list Z := map Z.of_nat (seq 0 (Z.to_nat m)).

(** [x % mod] of an integer cell. *)
Definition remainder (mod_ : Z) (c : cell) : Z :=
  match c with Some (SInt z) => z mod mod_ | _ => 0 end.

(** [int(x / divisor)] of an integer cell. *)
Definition quotient (divisor : Z) (c : cell) : Z :=
  match c with
  | Some (SInt z) =>
      match int_truediv z divisor with Ok f => py_int f | Raise _ => 0 end
  | _ => 0
  end.

(** The quotients met in column [i], each once. *)
Definition quotients (df : DataFrame) (i : nat) (divisor : Z) : list Z :=
  nodup Z.eq_dec (map (fun r => quotient divisor (nth i r None)) (rows df)).

(** The column holds integers: no cell is null. *)
Definition no_nulls (df : DataFrame) (i : nat) : Prop :=
  forall r, In r (rows df) -> has_value (nth i r None) = true.

(** Some row has a value in column [i]. *)
Definition some_value (df : DataFrame) (i : nat) : bool :=
  existsb (fun r => has_value (nth i r None)) (rows df).

(** The slices of a table for the identifier values [ks] under a split
    [slice]: they stand pairwise apart, and together they are the table. *)
Definition partitions (slice : Z -> result DataFrame) (ks : list Z)
    (df : DataFrame) : Prop :=
  exists parts,
    traverse slice ks = Ok parts
    /\ Permutation (List.concat (map rows parts)) (rows df)
    /\ forall k1 k2 d1 d2 r,
         slice k1 = Ok d1 -> slice k2 = Ok d2 ->
         In r (rows d1) -> In r (rows d2) -> k1 = k2.



(** A result that the same split leaves as it is. *)
Definition settled (split : DataFrame -> result DataFrame)
    (r : result DataFrame) : Prop :=
  forall d, r = Ok d -> split d = Ok d.

(** A result that the same split leaves as it is, when it is a table
    with rows and without nulls in the named column. *)
Definition settled_with_values (split : DataFrame -> result DataFrame)
    (column_name : string) (r : result DataFrame) : Prop :=
  forall d i t,
    r = Ok d -> find_column (schema d) column_name 0 = Some (i, t) ->
    rows d <> [] -> no_nulls d i -> split d = Ok d.

(** The test that [subset_df[c] == value] puts to the cells of the named
    column, with the position of the column. *)
Definition column_test {env : PyEnv} (sch : list (string * dtype))
    (batch_identifiers : batch_identifiers_t) (c : string)
  : option (nat * (scalar -> bool)) :=
  match find_column sch c 0 with
  | Some (i, t) =>
      match comparand t (get batch_identifiers c) with
      | Ok test => Some (i, test)
      | Raise _ => None
      end
  | None => None
  end.

(** The row passes, in every named column, the test of its identifier. *)
Definition matches_identifiers {env : PyEnv} (sch : list (string * dtype))
    (batch_identifiers : batch_identifiers_t) (column_names : list string)
    (r : list cell) : bool :=
  forallb (fun c => match column_test sch batch_identifiers c with
                    | Some (i, test) => cell_passes test (nth i r None)
                    | None => false
                    end) column_names.

(** The named column can be filtered on: it has a truthy identifier, it
    is a column of the table, and the identifier can be compared with it. *)
Definition filterable {env : PyEnv} (sch : list (string * dtype))
    (batch_identifiers : batch_identifiers_t) (c : string) : bool :=
  truthy (get batch_identifiers c)
  && match column_test sch batch_identifiers c with
     | Some _ => true
     | None => false
     end.

(** The cell holds an integer whose remainder, resp. quotient truncated
    toward zero, is the identifier. *)
Definition remainder_matches (mod_ : Z) (v : pyvalue) (c : cell) : bool :=
  match c with
  | Some (SInt z) => py_eq (SInt (z mod mod_)) v
  | _ => false
  end.

Definition truncated_quotient_matches (divisor : Z) (v : pyvalue) (c : cell)
  : bool :=
  match c with
  | Some (SInt z) => py_eq (SInt (Z.quot z divisor)) v
  | _ => false
  end.

(** The shape shared by the splits that test each value with a lambda. *)
Definition apply_filter {env : PyEnv} (f : cell -> result bool)
    (column_name : string) (df : DataFrame) : result DataFrame :=
  column <- df_column df column_name ;;
  matching_rows <- series_apply f column ;;
  df_getitem df matching_rows.

(** ** The Snowflake datasource

    From great_expectations/datasource/fluent/snowflake_datasource.py:
    the path of a connection URL and the root-level connection fields. *)

(** The exceptions of these functions; [UrlPathError] carries the [msg]
    of its context, if one was given. *)
Inductive url_exn : Type :=
| UrlPathError (msg : option string)
| AssertionError
| IndexError.

Inductive url_result (A : Type) : Type :=
| Returns (a : A)
| Fails (e : url_exn).
Arguments Returns {A} a.
Arguments Fails {A} e.

(** [s.split(sep)] for a one-character separator. *)
Fixpoint split_on (sep : ascii) (s : string) : list string :=
  match s with
  | EmptyString => [EmptyString]
  | String c s' =>
      if Ascii.eqb c sep then EmptyString :: split_on sep s'
      else match split_on sep s' with
           | segment :: segments => String c segment :: segments
           | [] => [String c EmptyString]
           end
  end.

(** [sep.join(segments)] *)
Fixpoint join_with (sep : ascii) (segments : list string) : string :=
  match segments with
  | [] => EmptyString
  | [segment] => segment
  | segment :: rest =>
      (segment ++ String sep (join_with sep rest))%string
  end.

(** [sep] does not occur in [s]. *)
Fixpoint free_of (sep : ascii) (s : string) : bool :=
  match s with
  | EmptyString => true
  | String c s' => negb (Ascii.eqb c sep) && free_of sep s'
  end.

(** [s.count(sep)] *)
Fixpoint count_of (sep : ascii) (s : string) : nat :=
  match s with
  | EmptyString => O
  | String c s' =>
      ((if Ascii.eqb c sep then 1 else 0) + count_of sep s')%nat
  end.

Definition slash : ascii := "/"%char.

(** The returned dict, with its two keys. *)
Record database_and_schema := mkDatabaseAndSchema {
  database : string;
  schema_ : string }.

(** [url_path] is [None] when the URL has no path. *)
Definition _get_database_and_schema_from_path (url_path : option string)
  : url_result database_and_schema :=
  match url_path with
  | None => Fails (UrlPathError None)
  | Some path =>
      match split_on slash path with
      | _ :: database :: schema :: _ =>
          if String.eqb database EmptyString
          then Fails (UrlPathError (Some "missing database"))
          else if String.eqb schema EmptyString
          then Fails (UrlPathError (Some "missing schema"))
          else Returns (mkDatabaseAndSchema database schema)
      | _ => Fails (UrlPathError None)
      end
  end.

(** [SnowflakeDsn.database]: [assert self.path], then the second segment. *)
Definition SnowflakeDsn_database (path : option string) : url_result string :=
  match path with
  | None => Fails AssertionError
  | Some p =>
      if String.eqb p EmptyString then Fails AssertionError
      else match nth_error (split_on slash p) 1 with
           | Some segment => Returns segment
           | None => Fails IndexError
           end
  end.

(** [SnowflakeDsn.schema_] *)
Definition SnowflakeDsn_schema_ (path : option string) : url_result string :=
  match path with
  | None => Fails AssertionError
  | Some p =>
      if String.eqb p EmptyString then Fails AssertionError
      else match nth_error (split_on slash p) 2 with
           | Some segment => Returns segment
           | None => Fails IndexError
           end
  end.

(** [ConnectionDetails]; the password is kept as text. *)
Record ConnectionDetails := mkConnectionDetails {
  cd_account : string;
  cd_user : string;
  cd_password : string;
  cd_database : string;
  cd_schema_ : string;
  cd_warehouse : string;
  cd_role : string;
  cd_numpy : bool }.

(** [connection_string]: connection details, a [SnowflakeDsn] or a
    [ConfigUri], the last two given by their path. *)
Inductive connection : Type :=
| Details (d : ConnectionDetails)
| Dsn (path : option string)
| Uri (path : option string).

(** [SnowflakeDatasource.schema_] *)
Definition SnowflakeDatasource_schema_ (connection_string : connection)
  : url_result string :=
  match connection_string with
  | Details d => Returns (cd_schema_ d)
  | Dsn path => SnowflakeDsn_schema_ path
  | Uri path =>
      match _get_database_and_schema_from_path path with
      | Returns r => Returns (schema_ r)
      | Fails e => Fails e
      end
  end.

(** [SnowflakeDatasource.database] *)
Definition SnowflakeDatasource_database (connection_string : connection)
  : url_result string :=
  match connection_string with
  | Details d => Returns (cd_database d)
  | Dsn path => SnowflakeDsn_database path
  | Uri path =>
      match _get_database_and_schema_from_path path with
      | Returns r => Returns (database r)
      | Fails e => Fails e
      end
  end.

(** [ConnectionDetails.__fields__.keys()]: the fields the class declares,
    after those its base model may declare. *)
Definition ConnectionDetails_fields (inherited : list string) : list string :=
  inherited ++ ["account"; "user"; "password"; "database"; "schema_";
                "warehouse"; "role"; "numpy"].

Definition connection_detail_fields (inherited : list string) : list string :=
  "schema" :: ConnectionDetails_fields inherited.

Definition is_connection_detail_field (inherited : list string)
    (field_name : string) : bool :=
  existsb (String.eqb field_name) (connection_detail_fields inherited).

(** [d.pop(key)]: the dict without the key. *)
Fixpoint dict_without {V} (d : dict string V) (key : string) : dict string V :=
  match d with
  | [] => []
  | (k, v) :: d' =>
      if String.eqb key k then d' else (k, v) :: dict_without d' key
  end.

Definition both_provided_message : string :=
  "Provided both connection detail keyword args and `connection_string`.".

(** The root validator that gathers root-level connection fields under
    [connection_string]. [values] is the dict the model is built from. *)
Definition _convert_root_connection_detail_fields (inherited : list string)
    (values : dict string pyvalue) : result (dict string pyvalue) :=
  let connection_string := get values "connection_string" in
  let provided_fields := map fst values in
  state <-
    for_each
      (fun '(values, connection_details) field_name =>
         if is_connection_detail_field inherited field_name
         then
           if truthy connection_string
           then Raise (ValueError both_provided_message)
           else
             v <- getitem values field_name ;;
             Ok (dict_without values field_name,
                 dict_set String.eqb connection_details field_name v)
         else Ok (values, connection_details))
      provided_fields (values, []) ;;
  let '(values, connection_details) := state in
  match connection_details with
  | [] => Ok values
  | _ :: _ =>
      Ok (dict_set String.eqb values "connection_string"
            (PDict connection_details))
  end.

(** The root-level entries that are connection details, and the others. *)
Definition connection_detail_entries (inherited : list string)
    (values : dict string pyvalue) : dict string pyvalue :=
  filter (fun entry => is_connection_detail_field inherited (fst entry))
         values.

Definition other_entries (inherited : list string)
    (values : dict string pyvalue) : dict string pyvalue :=
  filter (fun entry =>
            negb (is_connection_detail_field inherited (fst entry)))
         values.

(** * Properties *)

(** ** Loops, masks and filters *)

Lemma traverse_ext {A B} (f g : A -> result B) (l : list A) :
  (forall a, In a l -> f a = g a) -> traverse f l = traverse g l.
Proof.
  induction l as [|a l IH]; intros E; simpl; [reflexivity|].
  rewrite (E a (or_introl eq_refl)), IH; [reflexivity|].
  intros b Hb. apply E. now right.
Qed.

Lemma traverse_pure {A B} (f : A -> result B) (g : A -> B) (l : list A) :
  (forall a, In a l -> f a = Ok (g a)) -> traverse f l = Ok (map g l).
Proof.
  induction l as [|a l IH]; intros E; simpl; [reflexivity|].
  rewrite (E a (or_introl eq_refl)). simpl.
  rewrite IH; [reflexivity|]. intros b Hb. apply E. now right.
Qed.

Lemma traverse_map {A B C} (f : B -> result C) (c : A -> B) (l : list A) :
  traverse f (map c l) = traverse (fun a => f (c a)) l.
Proof.
  induction l as [|a l IH]; simpl; [reflexivity|]. now rewrite IH.
Qed.

Lemma select_map {A} (h : A -> option bool) (l : list A) :
  select (map h l) l = filter (fun a => is_true (h a)) l.
Proof.
  induction l as [|a l IH]; simpl; [reflexivity|].
  destruct (h a) as [[|]|]; simpl; now rewrite IH.
Qed.

Lemma later_value_ext (env : PyEnv) {B} (f g : cell -> result B) (c : cell) :
  (forall x, f x = g x) -> later_value f c = later_value g c.
Proof. intros E. unfold later_value. now rewrite E. Qed.

Lemma apply_from_first_value_ext (env : PyEnv) {B} (f g : cell -> result B)
    (cells : list cell) :
  (forall x, f x = g x) ->
  apply_from_first_value f cells = apply_from_first_value g cells.
Proof.
  intros E. induction cells as [|[x|] cells IH]; cbn [apply_from_first_value];
    [reflexivity| |now rewrite IH].
  rewrite E.
  now rewrite (traverse_ext (later_value f) (later_value g) cells)
    by (intros; now apply later_value_ext).
Qed.

Lemma series_apply_ext (env : PyEnv) {B} (f g : cell -> result B)
    (s : Series) :
  (forall x, f x = g x) -> series_apply f s = series_apply g s.
Proof.
  intros E. unfold series_apply.
  rewrite (traverse_ext f g (s_values s)) by (intros; apply E).
  now rewrite (apply_from_first_value_ext env f g (s_values s) E).
Qed.

Lemma slice_from_0 (s : string) : slice_from 0 s = s.
Proof.
  unfold slice_from. simpl.
  replace (Z.min 0 (Z.of_nat (String.length s))) with 0 by lia.
  reflexivity.
Qed.

(** ** The convenience entry points *)

(** C9. Whatever the helpers of the base class do, [split_on_year],
    [split_on_year_and_month] and [split_on_year_and_month_and_day] are
    [split_on_date_parts] at the date parts [YEAR], at [YEAR, MONTH] and
    at [YEAR, MONTH, DAY]: they add no behaviour of their own. *)
Theorem convenience_splits_are_date_part_splits
    (env : PyEnv) (self : DataSplitter) (df : DataFrame)
    (column_name : string) (batch_identifiers : batch_identifiers_t) :
  split_on_year df column_name batch_identifiers
    = split_on_date_parts df column_name batch_identifiers [Member YEAR]
  /\ split_on_year_and_month df column_name batch_identifiers
    = split_on_date_parts df column_name batch_identifiers
        [Member YEAR; Member MONTH]
  /\ split_on_year_and_month_and_day df column_name batch_identifiers
    = split_on_date_parts df column_name batch_identifiers
        [Member YEAR; Member MONTH; Member DAY].
Proof. repeat split. Qed.

(** ** Hashed columns *)

Lemma invalid_hash_message_names (name : string) :
  contains name (invalid_hash_message name).
Proof.
  unfold contains, invalid_hash_message.
  now exists invalid_hash_preamble, " cannot be found.".
Qed.

(** C3. A [hash_function_name] that [hashlib] does not have makes
    [split_on_hashed_column] raise an [ExecutionEngineError] whose message
    contains that name. The error is the same for every dataframe, column,
    digit count and batch identifiers, so no row has been hashed, and it is
    not an [AttributeError]. *)
Theorem unknown_hash_function_raises_engine_error
    (env : PyEnv) (hash_function_name : string) :
  hashlib hash_function_name = None ->
  exists msg,
    contains hash_function_name msg
    /\ is_domain_error (ExecutionEngineError msg) = true
    /\ forall df column_name hash_digits batch_identifiers,
         split_on_hashed_column df column_name hash_digits batch_identifiers
           hash_function_name
         = Raise (ExecutionEngineError msg).
Proof.
  intros Hnone. exists (invalid_hash_message hash_function_name).
  split; [apply invalid_hash_message_names|]. split; [reflexivity|].
  intros. unfold split_on_hashed_column. now rewrite Hnone.
Qed.

Lemma unknown_hash_function_witness :
  hashlib (PyEnv := sample_env) "md6" = None
  /\ exists msg,
       contains "md6" msg
       /\ is_domain_error (ExecutionEngineError msg) = true
       /\ forall df column_name hash_digits batch_identifiers,
            split_on_hashed_column (env := sample_env) df column_name
              hash_digits batch_identifiers "md6"
            = Raise (ExecutionEngineError msg).
Proof.
  split; [reflexivity|].
  apply (unknown_hash_function_raises_engine_error sample_env "md6").
  reflexivity.
Defined.


(** With zero digits an empty [hash_value] matches no row; with one digit
    it is the last digit that counts. *)
Example zero_hash_digits_examples :
  split_on_hashed_column (env := sample_env) (ints_table [5; 15; 25]) "n" 0
    [("hash_value", PStr EmptyString)] "sum4"
  = Ok (ints_table [])
  /\ split_on_hashed_column (env := sample_env) (ints_table [5; 15; 25]) "n" 0
       [("hash_value", PStr "0053")] "sum4"
     = Ok (ints_table [5])
  /\ split_on_hashed_column (env := sample_env) (ints_table [5; 15; 25]) "n" 1
       [("hash_value", PStr "2")] "sum4"
     = Ok (ints_table [15]).
Proof. repeat split. Qed.

(** ** Columns of well-formed tables *)

Lemma find_column_typed (sch : list (string * dtype)) :
  forall name k i t r,
    find_column sch name k = Some (i, t) -> row_typed sch r = true ->
    (k <= i)%nat /\ has_dtype t (nth (i - k) r None) = true.
Proof.
  induction sch as [|[n t'] sch IH]; intros name k i t r Hf Hr;
    simpl in *; [discriminate|].
  destruct r as [|c r]; [discriminate|].
  apply andb_prop in Hr as [Hc Hr].
  destruct (String.eqb name n).
  - inversion Hf; subst. split; [lia|]. now rewrite Nat.sub_diag.
  - destruct (IH _ _ _ _ _ Hf Hr) as [Hle Ht]. split; [lia|].
    now replace (i - k)%nat with (S (i - S k)) by lia.
Qed.

Lemma well_formed_column (df : DataFrame) (name : string) (i : nat)
    (t : dtype) :
  well_formed df -> find_column (schema df) name 0 = Some (i, t) ->
  forall r, In r (rows df) -> has_dtype t (nth i r None) = true.
Proof.
  intros Hwf Hf r Hr.
  destruct (find_column_typed _ _ _ _ _ r Hf (Hwf r Hr)) as [_ H].
  now rewrite Nat.sub_0_r in H.
Qed.

Lemma well_formedb_sound (df : DataFrame) :
  well_formedb df = true -> well_formed df.
Proof.
  unfold well_formedb, well_formed. rewrite forallb_forall. auto.
Qed.

Lemma filter_none {A} (f : A -> bool) (l : list A) :
  (forall a, In a l -> f a = false) -> filter f l = [].
Proof.
  induction l as [|a l IH]; intros E; simpl; [reflexivity|].
  rewrite (E a (or_introl eq_refl)). apply IH. intros b Hb. apply E. now right.
Qed.

Lemma existsb_column (i : nat) (rws : list (list cell)) :
  existsb has_value (map (fun r => nth i r None) rws)
  = existsb (fun r => has_value (nth i r None)) rws.
Proof.
  induction rws as [|r l IH]; simpl; [reflexivity | now rewrite IH].
Qed.

(** ** Zero divisor and zero modulus *)

(** A lambda that fails on every value: the first value ends the call,
    and without one the lambda is never called. *)
Lemma apply_first_fault (env : PyEnv) {B} (f : cell -> result B) (e : exn)
    (cells : list cell) :
  (forall c, In c cells -> has_value c = true -> f c = Raise e) ->
  apply_from_first_value f cells
  = if existsb has_value cells then Raise e else Ok None.
Proof.
  induction cells as [|[x|] cells IH]; intros E; cbn [apply_from_first_value];
    [reflexivity| |].
  - now rewrite (E (Some x) (or_introl eq_refl) eq_refl).
  - rewrite IH by (intros c Hc; apply E; now right).
    cbn [existsb has_value orb]. now destruct (existsb has_value cells).
Qed.

Lemma apply_filter_fault (env : PyEnv) (f : cell -> result bool) (e : exn)
    (df : DataFrame) (column_name : string) (i : nat) (t : dtype) :
  find_column (schema df) column_name 0 = Some (i, t) ->
  temporal t = false ->
  (forall r x, In r (rows df) -> nth i r None = Some x ->
     f (Some x) = Raise e) ->
  apply_filter f column_name df
  = if some_value df i then Raise e else df_getitem df (Untyped t).
Proof.
  intros Hcol Ht Hf. unfold apply_filter, df_column, some_value.
  rewrite Hcol. cbn [bind]. unfold series_apply. cbn [s_dtype s_values].
  rewrite Ht, (apply_first_fault env f e).
  - rewrite existsb_column.
    destruct (existsb (fun r => has_value (nth i r None)) (rows df));
      reflexivity.
  - intros c Hc Hv. apply in_map_iff in Hc as [r [<- Hr]].
    destruct (nth i r None) as [x|] eqn:E; [|discriminate].
    exact (Hf r x Hr E).
Qed.

Lemma zero_divisor_outcomes
    (env : PyEnv) (df : DataFrame) (column_name : string)
    (batch_identifiers : batch_identifiers_t) (v : pyvalue) (i : nat) :
  well_formed df ->
  find_column (schema df) column_name 0 = Some (i, Int64) ->
  getitem batch_identifiers column_name = Ok v ->
  split_on_divided_integer df column_name 0 batch_identifiers
  = (if some_value df i then Raise ZeroDivisionError else Raise TypeError)
  /\ split_on_mod_integer df column_name 0 batch_identifiers
     = (if some_value df i then Raise ZeroDivisionError else Raise TypeError).
Proof.
  intros Hwf Hcol Hid.
  assert (Hty := well_formed_column df column_name i Int64 Hwf Hcol).
  unfold split_on_divided_integer, split_on_mod_integer.
  rewrite Hid. cbn [bind]. split.
  - apply (apply_filter_fault env _ ZeroDivisionError df column_name i Int64
             Hcol eq_refl).
    intros r x Hr E. specialize (Hty r Hr). rewrite E in Hty.
    destruct x as [z|s|d|d]; try discriminate. reflexivity.
  - apply (apply_filter_fault env _ ZeroDivisionError df column_name i Int64
             Hcol eq_refl).
    intros r x Hr E. specialize (Hty r Hr). rewrite E in Hty.
    destruct x as [z|s|d|d]; try discriminate. reflexivity.
Qed.

(** C1, as the code has it. With [divisor = 0] (or [mod = 0]) on an
    integer column the splitter makes no check of its own: when the
    column has a value in some row, the interpreter's [ZeroDivisionError]
    leaves the call unchanged; and no call on such a column ends in a
    domain error. *)
Theorem zero_divisor_fault_propagates
    (env : PyEnv) (df : DataFrame) (column_name : string)
    (batch_identifiers : batch_identifiers_t) (v : pyvalue) (i : nat) :
  well_formed df ->
  find_column (schema df) column_name 0 = Some (i, Int64) ->
  getitem batch_identifiers column_name = Ok v ->
  (some_value df i = true ->
   split_on_divided_integer df column_name 0 batch_identifiers
   = Raise ZeroDivisionError
   /\ split_on_mod_integer df column_name 0 batch_identifiers
      = Raise ZeroDivisionError)
  /\ ~ raises_domain_error
         (split_on_divided_integer df column_name 0 batch_identifiers)
  /\ ~ raises_domain_error
         (split_on_mod_integer df column_name 0 batch_identifiers).
Proof.
  intros Hwf Hcol Hid.
  destruct (zero_divisor_outcomes env df column_name batch_identifiers v i
              Hwf Hcol Hid) as [-> ->].
  split; [intros ->; now split|].
  split; intros [e [He Hd]]; destruct (some_value df i);
    inversion He; subst; discriminate.
Qed.

Lemma zero_divisor_fault_witness :
  (split_on_divided_integer (env := sample_env) (ints_table [5; 15; 25]) "n" 0
     [("n", PInt 1)]
   = Raise ZeroDivisionError
   /\ split_on_mod_integer (env := sample_env) (ints_table [5; 15; 25]) "n" 0
        [("n", PInt 1)]
      = Raise ZeroDivisionError)
  /\ ~ raises_domain_error
         (split_on_divided_integer (env := sample_env) (ints_table [5; 15; 25])
            "n" 0 [("n", PInt 1)])
  /\ ~ raises_domain_error
         (split_on_mod_integer (env := sample_env) (ints_table [5; 15; 25])
            "n" 0 [("n", PInt 1)]).
Proof.
  destruct (zero_divisor_fault_propagates sample_env (ints_table [5; 15; 25])
              "n" [("n", PInt 1)] (PInt 1) 0
              (well_formedb_sound (ints_table [5; 15; 25]) eq_refl)
              eq_refl eq_refl) as [Hraise Hnone].
  split; [exact (Hraise eq_refl) | exact Hnone].
Defined.

(** C1, as stated, fails: on the one-column table 5, 15, 25 a zero divisor
    and a zero modulus both end in the raw [ZeroDivisionError], which is
    no domain error. *)
Lemma zero_divisor_is_not_a_domain_error :
  ~ raises_domain_error
      (split_on_divided_integer (env := sample_env) (ints_table [5; 15; 25])
         "n" 0 [("n", PInt 1)])
  /\ ~ raises_domain_error
        (split_on_mod_integer (env := sample_env) (ints_table [5; 15; 25])
           "n" 0 [("n", PInt 1)]).
Proof.
  split; intros [e [He Hd]]; vm_compute in He; inversion He; subst;
    discriminate.
Qed.

(** ** Equality filters *)

Lemma filter_filter {A} (f g : A -> bool) (l : list A) :
  filter g (filter f l) = filter (fun a => f a && g a) l.
Proof.
  induction l as [|a l IH]; simpl; [reflexivity|].
  destruct (f a); simpl; [destruct (g a)|]; now rewrite IH.
Qed.

Lemma filter_all {A} (l : list A) : filter (fun _ => true) l = l.
Proof. induction l as [|a l IH]; simpl; [reflexivity | now rewrite IH]. Qed.

Lemma filter_idem {A} (f : A -> bool) (l : list A) :
  filter f (filter f l) = filter f l.
Proof.
  rewrite filter_filter. apply filter_ext. intros a. apply andb_diag.
Qed.

(** One turn of the loop of [split_on_multi_column_values], and
    [split_on_column_value] once the identifier is read. *)
Lemma equality_filter_rows (env : PyEnv) (sch : list (string * dtype))
    (rws : list (list cell)) (c : string) (i : nat) (t : dtype)
    (v : pyvalue) :
  find_column sch c 0 = Some (i, t) ->
  (column <- df_column (mkDataFrame sch rws) c ;;
   mask <- series_eq column v ;;
   Ok (df_filter (mkDataFrame sch rws) mask))
  = (test <- comparand t v ;;
     Ok (mkDataFrame sch
           (filter (fun r => cell_passes test (nth i r None)) rws))).
Proof.
  intros Hcol. unfold df_column. cbn [schema rows]. rewrite Hcol.
  cbn [bind]. unfold series_eq, df_filter. cbn [s_dtype s_values schema rows].
  destruct (comparand t v) as [test|e]; [|reflexivity].
  cbn [bind]. rewrite map_map.
  now rewrite (select_map (fun r => option_map test (nth i r None)) rws).
Qed.

Lemma split_on_column_value_filters (env : PyEnv) (df : DataFrame)
    (column_name : string) (batch_identifiers : batch_identifiers_t)
    (i : nat) (t : dtype) (v : pyvalue) :
  find_column (schema df) column_name 0 = Some (i, t) ->
  getitem batch_identifiers column_name = Ok v ->
  split_on_column_value df column_name batch_identifiers
  = (test <- comparand t v ;;
     Ok (mkDataFrame (schema df)
           (filter (fun r => cell_passes test (nth i r None)) (rows df)))).
Proof.
  intros Hcol Hid. destruct df as [sch rws]. cbn [schema rows] in *.
  rewrite <- (equality_filter_rows env sch rws column_name i t v Hcol).
  unfold split_on_column_value, df_column. cbn [schema rows].
  rewrite Hcol. cbn [bind]. now rewrite Hid.
Qed.

Lemma comparand_same_type (env : PyEnv) (t : dtype) (v : pyvalue) :
  same_type t v = true -> comparand t v = Ok (equals v).
Proof.
  destruct t, v; cbn [same_type comparand]; try discriminate;
    try reflexivity; intros ->; reflexivity.
Qed.

(** ** Multi-column values *)

Lemma missing_identifier_message_names (column_name : string) :
  contains column_name (missing_identifier_message column_name).
Proof.
  unfold contains, missing_identifier_message.
  now exists missing_identifier_preamble,
    " was not found in batch_identifiers.".
Qed.

(** One turn of the loop on a column that can be filtered on. *)
Lemma filterable_turn (env : PyEnv) (sch : list (string * dtype))
    (batch_identifiers : batch_identifiers_t) (c : string) :
  filterable sch batch_identifiers c = true ->
  exists i test,
    column_test sch batch_identifiers c = Some (i, test)
    /\ truthy (get batch_identifiers c) = true
    /\ forall rws,
         (column <- df_column (mkDataFrame sch rws) c ;;
          mask <- series_eq column (get batch_identifiers c) ;;
          Ok (df_filter (mkDataFrame sch rws) mask))
         = Ok (mkDataFrame sch
                 (filter (fun r => cell_passes test (nth i r None)) rws)).
Proof.
  unfold filterable, column_test. intros H.
  apply andb_prop in H as [Ht Hc].
  destruct (find_column sch c 0) as [[i t]|] eqn:Hcol; [|discriminate].
  destruct (comparand t (get batch_identifiers c)) as [test|e] eqn:Hcmp;
    [|discriminate].
  exists i, test. split; [reflexivity|]. split; [exact Ht|]. intros rws.
  rewrite (equality_filter_rows env sch rws c i t _ Hcol), Hcmp.
  reflexivity.
Qed.

(** C2, as the code has it. The identifier of a column is checked inside
    the loop, when the loop reaches that column: if every column named
    before it has a truthy identifier, is a column of the table and can
    be compared with its identifier, then a missing or falsy identifier
    raises a [ValueError] whose message names the column, whatever
    follows it in [column_names]. Only for the first name of the list is
    this before all filtering. *)
Theorem missing_identifier_raises_in_turn
    (env : PyEnv) (df : DataFrame) (before : list string)
    (column_name : string) (after : list string)
    (batch_identifiers : batch_identifiers_t) :
  (forall c, In c before ->
     filterable (schema df) batch_identifiers c = true) ->
  truthy (get batch_identifiers column_name) = false ->
  split_on_multi_column_values df (before ++ column_name :: after)
    batch_identifiers
  = Raise (ValueError (missing_identifier_message column_name))
  /\ contains column_name (missing_identifier_message column_name).
Proof.
  intros Hbefore Hfalsy. split; [|apply missing_identifier_message_names].
  unfold split_on_multi_column_values.
  destruct df as [sch rws]. cbn [schema] in Hbefore. revert rws.
  induction before as [|c before IH]; intros rws; simpl.
  - now rewrite Hfalsy.
  - destruct (filterable_turn env sch batch_identifiers c
                (Hbefore c (or_introl eq_refl))) as [i [test [_ [Ht Hturn]]]].
    rewrite Ht. cbn [negb]. rewrite Hturn. cbn [bind]. apply IH.
    intros c' Hc'. apply Hbefore. now right.
Qed.

Lemma missing_identifier_witness :
  split_on_multi_column_values (env := sample_env) (ints_table [5; 15; 25])
    ["n"; "b"; "c"] [("n", PInt 5); ("b", PStr EmptyString)]
  = Raise (ValueError (missing_identifier_message "b"))
  /\ contains "b" (missing_identifier_message "b").
Proof.
  apply (missing_identifier_raises_in_turn sample_env (ints_table [5; 15; 25])
           ["n"] "b" ["c"] [("n", PInt 5); ("b", PStr EmptyString)]).
  - intros c [<-|[]]. reflexivity.
  - reflexivity.
Defined.

(** C2, as stated, fails: with the names a, b, an identifier for a only
    and a table that has no column a, the filter on a is attempted first
    and its [ColumnNotFoundError] is what the caller gets; no error about
    the missing identifier of b is raised. *)
Lemma missing_identifier_checked_after_earlier_filter :
  get [("a", PInt 1)] "b" = PNone
  /\ split_on_multi_column_values (env := sample_env) (ints_table [5; 15; 25])
       ["a"; "b"] [("a", PInt 1)]
     = Raise (ColumnNotFoundError "a")
  /\ ~ (exists msg,
          split_on_multi_column_values (env := sample_env)
            (ints_table [5; 15; 25]) ["a"; "b"] [("a", PInt 1)]
          = Raise (ValueError msg)).
Proof.
  repeat split. intros [msg H]. vm_compute in H. discriminate.
Qed.

(** ** Column value *)

(** C8, as the code has it. With the column present and an identifier for
    it, what [split_on_column_value] does depends on the cast the
    dataframe library makes before it compares. A value of the column's
    own type is compared as it is: the call returns the rows whose cell
    equals it, no row when none does, and raises nothing. On an integer
    column [None] makes the call raise [TypeError], and text goes through
    [int]: when [int] raises, so does the call, and when it gives a number
    the column can hold, the rows holding that number are returned. *)
Theorem column_value_is_cast_to_the_column_type
    (env : PyEnv) (df : DataFrame) (column_name : string)
    (batch_identifiers : batch_identifiers_t) (i : nat) (t : dtype)
    (v : pyvalue) :
  find_column (schema df) column_name 0 = Some (i, t) ->
  getitem batch_identifiers column_name = Ok v ->
  (same_type t v = true ->
   split_on_column_value df column_name batch_identifiers
   = Ok (mkDataFrame (schema df)
           (filter (fun r => cell_matches (nth i r None) v) (rows df))))
  /\ (integral t = true -> v = PNone ->
      split_on_column_value df column_name batch_identifiers
      = Raise TypeError)
  /\ (forall text e,
        integral t = true -> v = PStr text -> int_of_str text = Raise e ->
        split_on_column_value df column_name batch_identifiers = Raise e)
  /\ (forall text z,
        integral t = true -> v = PStr text -> int_of_str text = Ok z ->
        in_range t z = true ->
        split_on_column_value df column_name batch_identifiers
        = Ok (mkDataFrame (schema df)
                (filter (fun r => cell_matches (nth i r None) (PInt z))
                        (rows df)))).
Proof.
  intros Hcol Hid.
  rewrite (split_on_column_value_filters env df column_name batch_identifiers
             i t v Hcol Hid).
  split; [|split; [|split]].
  - intros Hsame. now rewrite (comparand_same_type env t v Hsame).
  - intros Ht ->. now destruct t.
  - intros text e Ht -> He. destruct t; try discriminate;
      cbn [comparand]; now rewrite He.
  - intros text z Ht -> Hz Hr. destruct t; try discriminate;
      cbn [comparand]; rewrite Hz; cbn [bind]; now rewrite Hr.
Qed.

Lemma column_value_cast_witness :
  split_on_column_value (env := sample_env) (ints_table [5; 15; 25]) "n"
    [("n", PInt 15)]
  = Ok (ints_table [15])
  /\ split_on_column_value (env := sample_env) (ints_table [5; 15; 25]) "n"
       [("n", PInt 7)]
     = Ok (ints_table [])
  /\ split_on_column_value (env := sample_env) (ints_table [5; 15; 25]) "n"
       [("n", PStr "15")]
     = Ok (ints_table [15]).
Proof.
  split; [|split].
  - exact (proj1 (column_value_is_cast_to_the_column_type sample_env
                    (ints_table [5; 15; 25]) "n" [("n", PInt 15)] 0%nat Int64
                    (PInt 15) eq_refl eq_refl) eq_refl).
  - exact (proj1 (column_value_is_cast_to_the_column_type sample_env
                    (ints_table [5; 15; 25]) "n" [("n", PInt 7)] 0%nat Int64
                    (PInt 7) eq_refl eq_refl) eq_refl).
  - exact (proj2 (proj2 (proj2
             (column_value_is_cast_to_the_column_type sample_env
                (ints_table [5; 15; 25]) "n" [("n", PStr "15")] 0%nat Int64
                (PStr "15") eq_refl eq_refl)))
             "15" 15 eq_refl eq_refl eq_refl eq_refl).
Defined.

(** C8, as stated, fails. On the integer column 5, 15, 25 the text ["5"]
    is no integer, yet the call returns the row holding 5, not an empty
    dataframe; the text ["abc"] makes the call raise the [ValueError] of
    [int]; and [None] makes it raise [TypeError]. *)
Lemma column_value_type_mismatch_matches_or_raises :
  split_on_column_value (env := sample_env) (ints_table [5; 15; 25]) "n"
    [("n", PStr "5")]
  = Ok (ints_table [5])
  /\ split_on_column_value (env := sample_env) (ints_table [5; 15; 25]) "n"
       [("n", PStr "abc")]
     = Raise (ValueError "invalid literal for int() with base 10: 'abc'")
  /\ split_on_column_value (env := sample_env) (ints_table [5; 15; 25]) "n"
       [("n", PNone)]
     = Raise TypeError.
Proof. repeat split. Qed.

(** On a text column the value is compared as [str] writes it. *)
Example text_column_compares_with_str_of_value :
  split_on_column_value (env := sample_env)
    (mkDataFrame [("s", Utf8)] [[Some (SStr "5")]; [Some (SStr "x")]; [None]])
    "s" [("s", PInt 5)]
  = Ok (mkDataFrame [("s", Utf8)] [[Some (SStr "5")]]).
Proof. reflexivity. Qed.

(** ** Date parts *)

Lemma alike_refl {A} (r : result A) : alike r r.
Proof. now destruct r. Qed.

Lemma alike_outcomes {A} (r1 r2 : result A) :
  alike r1 r2 ->
  (forall a, r1 = Ok a <-> r2 = Ok a)
  /\ ((exists e, r1 = Raise e) <-> (exists e, r2 = Raise e)).
Proof.
  destruct r1 as [a1|e1], r2 as [a2|e2]; cbn [alike]; intros H;
    try contradiction.
  - subst a2. split; [reflexivity|]. split; intros [e He]; discriminate.
  - split; [intros a; split; discriminate|]. split; intros _; eauto.
Qed.

Lemma date_part_filters_spec (env : PyEnv) (column_name : string)
    (date_parts_dict : dict DatePart pyvalue) :
  forall df,
    date_part_filters column_name date_parts_dict df
    = match date_parts_dict, find_column (schema df) column_name 0 with
      | [], _ => Ok df
      | _ :: _, None => Raise (ColumnNotFoundError column_name)
      | _ :: _, Some (i, t) =>
          if temporal t
          then tests <- date_part_tests date_parts_dict ;;
               Ok (mkDataFrame (schema df)
                     (filter (matches_all i tests) (rows df)))
          else Raise (ValueError accessor_message)
      end.
Proof.
  unfold date_part_filters.
  induction date_parts_dict as [|[p v] d IH]; intros df; [reflexivity|].
  cbn [for_each]. unfold df_column at 1.
  destruct (find_column (schema df) column_name 0) as [[i t]|] eqn:Hcol;
    [|reflexivity].
  cbv beta iota delta [bind]. unfold series_dt.
  cbv beta iota delta [s_dtype s_values].
  destruct (temporal t) eqn:Ht; [|reflexivity].
  unfold series_eq. cbn [s_dtype s_values].
  unfold date_part_tests. cbn [traverse].
  destruct (comparand (part_dtype p) v) as [test|e]; [|reflexivity].
  cbv beta iota delta [bind]. rewrite IH. unfold df_filter. cbn [schema rows].
  rewrite !map_map, Hcol, Ht.
  rewrite (select_map
             (fun r => option_map test (date_part_cell p (nth i r None)))
             (rows df)).
  destruct d as [|e d].
  - cbn [traverse]. f_equal. destruct df as [sch rws]. cbn [schema rows].
    f_equal. apply filter_ext. intros r. unfold matches_all. cbn [forallb].
    unfold cell_passes. now rewrite andb_true_r.
  - unfold date_part_tests.
    destruct (traverse _ (e :: d)) as [tests|e']; [|reflexivity].
    cbv beta iota delta [bind]. rewrite filter_filter. reflexivity.
Qed.

Lemma split_on_date_parts_unfold (env : PyEnv) (df : DataFrame)
    (column_name : string) (batch_identifiers : batch_identifiers_t)
    (date_parts : list date_part_arg) :
  split_on_date_parts (self := SpecDataSplitter) df column_name
    batch_identifiers date_parts
  = (_ <- spec_validate_date_parts date_parts ;;
     parts <- spec_convert_date_parts date_parts ;;
     column_batch_identifiers <- getitem batch_identifiers column_name ;;
     date_parts_dict <-
       spec_convert_datetime_batch_identifiers_to_date_parts_dict
         column_batch_identifiers parts ;;
     date_part_filters column_name date_parts_dict df).
Proof. reflexivity. Qed.

Lemma validate_canonical (date_parts : list date_part_arg) :
  spec_validate_date_parts (canonical date_parts)
  = spec_validate_date_parts date_parts.
Proof.
  unfold spec_validate_date_parts, canonical. rewrite traverse_map.
  f_equal. apply traverse_ext. intros a _.
  destruct (normalize_date_part a) eqn:E; [reflexivity | now rewrite E].
Qed.

Lemma convert_canonical (date_parts : list date_part_arg) :
  spec_convert_date_parts (canonical date_parts)
  = spec_convert_date_parts date_parts.
Proof.
  unfold spec_convert_date_parts, canonical. rewrite traverse_map.
  apply traverse_ext. intros a _.
  destruct (normalize_date_part a) eqn:E; [reflexivity | now rewrite E].
Qed.

Lemma validate_rejects (date_parts : list date_part_arg) :
  (exists a, In a date_parts /\ normalize_date_part a = None) ->
  exists a, In a date_parts /\ normalize_date_part a = None
            /\ spec_validate_date_parts date_parts
               = Raise (InvalidConfigError (invalid_date_part_message a)).
Proof.
  unfold spec_validate_date_parts.
  induction date_parts as [|a l IH]; intros [b [Hin Hb]]; [destruct Hin|].
  destruct (normalize_date_part a) as [p|] eqn:Ha.
  - destruct Hin as [->|Hin]; [congruence|].
    destruct IH as [a0 [Hin0 [Hn0 Hv]]]; [eauto|].
    exists a0. split; [now right|]. split; [exact Hn0|].
    cbn [traverse]. rewrite Ha. cbv beta iota delta [bind] in *.
    destruct (traverse _ l); [discriminate | exact Hv].
  - exists a. split; [now left|]. split; [exact Ha|].
    cbn [traverse]. now rewrite Ha.
Qed.

Lemma invalid_date_part_message_names (a : date_part_arg) :
  contains (date_part_text a) (invalid_date_part_message a).
Proof. now exists EmptyString, " is not a valid DatePart". Qed.

(** C4. Against the helpers as the spec describes them: a [date_parts]
    list with an entry outside the enumeration (text is compared without
    regard to case) makes [split_on_date_parts] raise a validation error
    naming the entry, the same for every dataframe, column and batch
    identifiers, so no row has been looked at; and a call behaves as the
    call with every entry replaced by its canonical enum member. *)
Theorem invalid_date_part_fails_before_rows
    (env : PyEnv) (date_parts : list date_part_arg) :
  ((exists a, In a date_parts /\ normalize_date_part a = None) ->
   exists a msg,
     In a date_parts /\ normalize_date_part a = None
     /\ contains (date_part_text a) msg
     /\ forall df column_name batch_identifiers,
          split_on_date_parts (self := SpecDataSplitter) df column_name
            batch_identifiers date_parts
          = Raise (InvalidConfigError msg))
  /\ (forall df column_name batch_identifiers,
        split_on_date_parts (self := SpecDataSplitter) df column_name
          batch_identifiers date_parts
        = split_on_date_parts (self := SpecDataSplitter) df column_name
            batch_identifiers (canonical date_parts)).
Proof.
  split.
  - intros Hbad.
    destruct (validate_rejects date_parts Hbad) as [a [Hin [Hn Hv]]].
    exists a, (invalid_date_part_message a).
    repeat split; try assumption; [apply invalid_date_part_message_names|].
    intros. rewrite split_on_date_parts_unfold. now rewrite Hv.
  - intros. rewrite !split_on_date_parts_unfold.
    now rewrite validate_canonical, convert_canonical.
Qed.

Lemma invalid_date_part_witness :
  (exists a, In a [Text "Year"; Text "fortnight"]
             /\ normalize_date_part a = None)
  /\ exists a msg,
       In a [Text "Year"; Text "fortnight"] /\ normalize_date_part a = None
       /\ contains (date_part_text a) msg
       /\ forall df column_name batch_identifiers,
            split_on_date_parts (env := sample_env)
      (self := SpecDataSplitter (env := sample_env))
              df column_name batch_identifiers [Text "Year"; Text "fortnight"]
            = Raise (InvalidConfigError msg).
Proof.
  assert (Hbad : exists a, In a [Text "Year"; Text "fortnight"]
                           /\ normalize_date_part a = None).
  { exists (Text "fortnight"). split; [right; now left | reflexivity]. }
  split; [exact Hbad|].
  exact (proj1 (invalid_date_part_fails_before_rows sample_env
                  [Text "Year"; Text "fortnight"]) Hbad).
Defined.

Example mixed_case_date_parts_are_normalized :
  canonical [Text "Year"; Text "MONTH"; Member DAY]
  = [Member YEAR; Member MONTH; Member DAY].
Proof. reflexivity. Qed.

Example invalid_date_part_example :
  split_on_date_parts (env := sample_env)
      (self := SpecDataSplitter (env := sample_env)) two_dates
    "date" [("date", PDict [("year", PInt 2021)])]
    [Text "Year"; Text "fortnight"]
  = Raise (InvalidConfigError "fortnight is not a valid DatePart").
Proof. reflexivity. Qed.

(** C6. Against the helpers as the spec describes them: on the rows
    (1, 2021-05-01) and (2, 2022-05-01) the year-and-month split for
    [{date: {year: 2021, month: 5}}] returns the row with id 1 alone; and
    on any temporal column, with a nested mapping that gives a year and a
    month as integers (a year the 32-bit series of years can hold, a
    month the unsigned 32-bit series of months can hold), the rows kept
    are those whose year and whose month both equal the targets, the
    other fields of the value playing no part. *)
Theorem year_and_month_split_keeps_rows_matching_both (env : PyEnv) :
  split_on_year_and_month (self := SpecDataSplitter) two_dates "date" may_2021
  = Ok (mkDataFrame [("id", Int64); ("date", Date)]
          [[Some (SInt 1); Some (SDate (mkDate 2021 5 1))]])
  /\ forall df column_name batch_identifiers mapping i t year month,
       find_column (schema df) column_name 0 = Some (i, t) ->
       temporal t = true ->
       getitem batch_identifiers column_name = Ok (PDict mapping) ->
       getitem mapping "year" = Ok (PInt year) ->
       getitem mapping "month" = Ok (PInt month) ->
       in_range Int32 year = true ->
       in_range UInt32 month = true ->
       split_on_year_and_month (self := SpecDataSplitter) df column_name
         batch_identifiers
       = Ok (mkDataFrame (schema df)
               (filter
                  (fun r =>
                     cell_matches (date_part_cell YEAR (nth i r None))
                       (PInt year)
                     && cell_matches (date_part_cell MONTH (nth i r None))
                          (PInt month))
                  (rows df))).
Proof.
  split; [reflexivity|].
  intros df column_name batch_identifiers mapping i t year month
         Hcol Ht Hid Hyear Hmonth Hy Hm.
  unfold split_on_year_and_month. rewrite split_on_date_parts_unfold.
  cbn [spec_validate_date_parts spec_convert_date_parts traverse
       normalize_date_part bind].
  rewrite Hid. cbn [bind].
  cbn [spec_convert_datetime_batch_identifiers_to_date_parts_dict for_each
       DatePart_value].
  rewrite Hyear. cbn [bind dict_set]. rewrite Hmonth.
  cbn [bind dict_set DatePart_eqb].
  rewrite date_part_filters_spec, Hcol, Ht.
  unfold date_part_tests. cbn [traverse part_dtype comparand].
  rewrite Hy, Hm. cbn [bind]. do 2 f_equal.
  apply filter_ext. intros r. unfold matches_all. cbn [forallb].
  now rewrite andb_true_r.
Qed.

Lemma year_and_month_split_witness :
  split_on_year_and_month (env := sample_env)
    (self := SpecDataSplitter (env := sample_env))
    two_dates "date" may_2021
  = Ok (mkDataFrame (schema two_dates)
          (filter
             (fun r =>
                cell_matches (date_part_cell YEAR (nth 1 r None)) (PInt 2021)
                && cell_matches (date_part_cell MONTH (nth 1 r None)) (PInt 5))
             (rows two_dates))).
Proof.
  exact (proj2 (year_and_month_split_keeps_rows_matching_both sample_env)
           two_dates "date" may_2021 [("year", PInt 2021); ("month", PInt 5)]
           1%nat Date 2021 5
           eq_refl eq_refl eq_refl eq_refl eq_refl eq_refl eq_refl).
Defined.

(** A month alone is not truncated to a year: both Mays match. *)
Example month_split_spans_years :
  split_on_date_parts (env := sample_env)
      (self := SpecDataSplitter (env := sample_env)) two_dates
    "date" [("date", PDict [("month", PInt 5)])] [Text "month"]
  = Ok two_dates.
Proof. reflexivity. Qed.

(** Targets are cast as the library casts them: the text of a year
    selects that year, and text that is no number ends the call. *)
Example date_part_targets_are_cast :
  split_on_date_parts (env := sample_env)
      (self := SpecDataSplitter (env := sample_env)) two_dates
    "date" [("date", PDict [("year", PStr "2021")])] [Member YEAR]
  = Ok (mkDataFrame [("id", Int64); ("date", Date)]
          [[Some (SInt 1); Some (SDate (mkDate 2021 5 1))]])
  /\ split_on_date_parts (env := sample_env)
      (self := SpecDataSplitter (env := sample_env))
       two_dates "date" [("date", PDict [("year", PStr "abc")])] [Member YEAR]
     = Raise (ValueError "invalid literal for int() with base 10: 'abc'").
Proof. split; reflexivity. Qed.

Lemma date_part_filters_swap (env : PyEnv) (column_name : string)
    (e1 e2 : DatePart * pyvalue) (df : DataFrame) :
  alike (date_part_filters column_name [e1; e2] df)
        (date_part_filters column_name [e2; e1] df).
Proof.
  rewrite !date_part_filters_spec.
  destruct (find_column (schema df) column_name 0) as [[i t]|];
    [|exact I].
  destruct (temporal t); [|exact I].
  unfold date_part_tests. destruct e1 as [p1 v1], e2 as [p2 v2].
  cbn [traverse].
  destruct (comparand (part_dtype p1) v1) as [test1|],
           (comparand (part_dtype p2) v2) as [test2|];
    cbn [bind alike]; try exact I.
  f_equal. apply filter_ext. intros r. unfold matches_all.
  cbn [forallb]. rewrite !andb_true_r. apply andb_comm.
Qed.

Lemma year_month_order (env : PyEnv) (df : DataFrame) (column_name : string)
    (batch_identifiers : batch_identifiers_t) :
  alike
    (split_on_date_parts (self := SpecDataSplitter) df column_name
       batch_identifiers [Member YEAR; Member MONTH])
    (split_on_date_parts (self := SpecDataSplitter) df column_name
       batch_identifiers [Member MONTH; Member YEAR]).
Proof.
  rewrite !split_on_date_parts_unfold.
  cbn [spec_validate_date_parts spec_convert_date_parts traverse
       normalize_date_part bind].
  destruct (getitem batch_identifiers column_name) as [v|e]; [|exact I].
  cbn [bind]. destruct v as [|z|text|d|t|mapping];
    cbn [spec_convert_datetime_batch_identifiers_to_date_parts_dict
         date_parts_of_date fold_left for_each DatePart_value dict_set
         DatePart_eqb bind]; try exact I;
    try apply date_part_filters_swap.
  - destruct (parse text) as [t|e]; [|exact I].
    cbn [bind date_parts_of_date fold_left dict_set DatePart_eqb].
    apply date_part_filters_swap.
  - destruct (getitem mapping "year") as [y|ey];
      destruct (getitem mapping "month") as [m|em];
      cbn [bind dict_set DatePart_eqb]; try exact I.
    apply date_part_filters_swap.
Qed.

(** C7. Against the helpers as the spec describes them: for every
    dataframe, column and batch identifiers, [split_on_date_parts] with
    [YEAR, MONTH] returns a dataframe exactly when it does with
    [MONTH, YEAR], and then the same dataframe, rows in the same order;
    when one call raises so does the other. *)
Theorem date_part_order_is_irrelevant
    (env : PyEnv) (df : DataFrame) (column_name : string)
    (batch_identifiers : batch_identifiers_t) :
  (forall result,
      split_on_date_parts (self := SpecDataSplitter) df column_name
        batch_identifiers [Member YEAR; Member MONTH] = Ok result
      <-> split_on_date_parts (self := SpecDataSplitter) df column_name
            batch_identifiers [Member MONTH; Member YEAR] = Ok result)
  /\ ((exists e,
         split_on_date_parts (self := SpecDataSplitter) df column_name
           batch_identifiers [Member YEAR; Member MONTH] = Raise e)
      <-> (exists e,
             split_on_date_parts (self := SpecDataSplitter) df column_name
               batch_identifiers [Member MONTH; Member YEAR] = Raise e)).
Proof.
  exact (alike_outcomes _ _
           (year_month_order env df column_name batch_identifiers)).
Qed.

Example year_month_rows_in_either_order :
  split_on_date_parts (env := sample_env)
      (self := SpecDataSplitter (env := sample_env)) two_dates
    "date" may_2021 [Member MONTH; Member YEAR]
  = Ok (mkDataFrame [("id", Int64); ("date", Date)]
          [[Some (SInt 1); Some (SDate (mkDate 2021 5 1))]]).
Proof. reflexivity. Qed.

(** ** Division and remainder on 64-bit columns *)

Lemma round_half_even_le (a b : Z) : round_half_even a b <= a / b + 1.
Proof.
  unfold round_half_even.
  destruct (2 * (a mod b) <? b); [lia|].
  destruct (b <? 2 * (a mod b)); [lia|].
  destruct (Z.even (a / b)); lia.
Qed.

Lemma pow2_pos (k : Z) : 0 < pow2 k.
Proof. unfold pow2. apply Z.pow_pos_nonneg; lia. Qed.

(** On 64-bit numerators true division cannot overflow a double. *)
Lemma int_truediv_total (a b : Z) :
  in_int64 a = true -> b <> 0 -> exists f, int_truediv a b = Ok f.
Proof.
  intros Ha Hb. unfold int_truediv.
  destruct (Z.eqb_spec b 0) as [|_]; [contradiction|].
  destruct (a =? 0); [eauto|].
  set (A := Z.abs a). set (B := Z.abs b).
  set (e := if B * pow2 (Z.log2 A - Z.log2 B)
               <=? A * pow2 (- (Z.log2 A - Z.log2 B))
            then Z.log2 A - Z.log2 B else Z.log2 A - Z.log2 B - 1).
  set (sh := Z.max (e - 52) (-1074)).
  set (m := round_half_even (A * pow2 (- sh)) (B * pow2 sh)).
  assert (HA : 0 <= A <= 2 ^ 63).
  { unfold in_int64 in Ha. apply andb_prop in Ha as [H1 H2].
    apply Z.leb_le in H1. apply Z.ltb_lt in H2. subst A. lia. }
  assert (HB : 1 <= B) by (subst B; lia).
  assert (HlA : Z.log2 A <= 63).
  { rewrite <- (Z.log2_pow2 63) by lia. apply Z.log2_le_mono. lia. }
  assert (HlB : 0 <= Z.log2 B) by apply Z.log2_nonneg.
  assert (Hsh : sh <= 11).
  { subst sh e. destruct (_ <=? _); lia. }
  destruct (0 <=? sh) eqn:Hs; [|simpl; eauto].
  apply Z.leb_le in Hs.
  assert (Hm : m * pow2 sh < 2 ^ 1024).
  { assert (Hp : pow2 sh <= 2 ^ 11).
    { unfold pow2. apply Z.pow_le_mono_r; lia. }
    assert (Hq : pow2 (- sh) = 1).
    { unfold pow2. now replace (Z.max 0 (- sh)) with 0 by lia. }
    assert (Hpp := pow2_pos sh).
    assert (Hm1 : m <= A + 1).
    { subst m. rewrite Hq, Z.mul_1_r.
      pose proof (round_half_even_le A (B * pow2 sh)) as Hr.
      assert (A / (B * pow2 sh) <= A); [|lia].
      assert (HX : 1 <= B * pow2 sh) by nia.
      generalize dependent (B * pow2 sh). intros X _ HX.
      apply Z.div_le_upper_bound; nia. }
    assert (Hm0 : m * pow2 sh <= (2 ^ 63 + 1) * 2 ^ 11) by nia.
    assert (Hbig : (2 ^ 63 + 1) * 2 ^ 11 < 2 ^ 75) by (vm_compute; reflexivity).
    assert (Hmono : 2 ^ 75 <= 2 ^ 1024) by (apply Z.pow_le_mono_r; lia).
    lia. }
  apply Z.leb_gt in Hm. rewrite Hm. simpl. eauto.
Qed.

(** ** Partitions *)

Section Classes.
Context {A : Type} (key : A -> Z).

Lemma classes_of_nil (ks : list Z) :
  List.concat (map (class_of key []) ks) = [].
Proof. induction ks as [|k ks IH]; simpl; [reflexivity | exact IH]. Qed.

Lemma classes_skip (a : A) (l : list A) (ks : list Z) :
  ~ In (key a) ks ->
  List.concat (map (class_of key (a :: l)) ks)
  = List.concat (map (class_of key l) ks).
Proof.
  induction ks as [|k ks IH]; intros Hn; [reflexivity|].
  cbn [map List.concat]. rewrite IH by (intros H; apply Hn; now right).
  f_equal. unfold class_of. cbn [filter].
  destruct (Z.eqb_spec (key a) k) as [E|_]; [|reflexivity].
  exfalso. apply Hn. now left.
Qed.

Lemma classes_insert (a : A) (l : list A) (ks : list Z) :
  NoDup ks -> In (key a) ks ->
  Permutation (List.concat (map (class_of key (a :: l)) ks))
              (a :: List.concat (map (class_of key l) ks)).
Proof.
  induction ks as [|k ks IH]; intros Hnd Hin; [destruct Hin|].
  inversion Hnd as [|? ? Hk Hks]; subst. cbn [map List.concat].
  unfold class_of at 1. cbn [filter].
  destruct (Z.eqb_spec (key a) k) as [E|N].
  - subst k. rewrite classes_skip by exact Hk. reflexivity.
  - destruct Hin as [E|Hin]; [congruence|].
    rewrite (IH Hks Hin). symmetry. apply Permutation_middle.
Qed.

(** Distinct keys that cover the list cut it into classes: every
    element lands in exactly one. *)
Lemma classes_partition (ks : list Z) (l : list A) :
  NoDup ks -> (forall a, In a l -> In (key a) ks) ->
  Permutation (List.concat (map (class_of key l) ks)) l.
Proof.
  intros Hnd. induction l as [|a l IH]; intros Hcov.
  - now rewrite classes_of_nil.
  - rewrite classes_insert; [|exact Hnd|apply Hcov; now left].
    apply perm_skip, IH. intros b Hb. apply Hcov. now right.
Qed.

Lemma class_of_disjoint (l : list A) (k1 k2 : Z) (a : A) :
  In a (class_of key l k1) -> In a (class_of key l k2) -> k1 = k2.
Proof.
  unfold class_of. rewrite !filter_In. intros [_ H1] [_ H2].
  apply Z.eqb_eq in H1, H2. congruence.
Qed.
End Classes.

Lemma range_NoDup (m : Z) : NoDup (range m).
Proof.
  unfold range. apply Finite.Injective_map_NoDup; [|apply seq_NoDup].
  intros x y. apply Nat2Z.inj.
Qed.

Lemma range_In (m k : Z) : 0 <= k < m -> In k (range m).
Proof.
  intros H. unfold range. apply in_map_iff. exists (Z.to_nat k).
  split; [lia|]. apply in_seq. lia.
Qed.

Lemma integer_cell (df : DataFrame) (column_name : string) (i : nat) :
  well_formed df -> find_column (schema df) column_name 0 = Some (i, Int64) ->
  no_nulls df i ->
  forall r, In r (rows df) ->
    exists z, nth i r None = Some (SInt z) /\ in_int64 z = true.
Proof.
  intros Hwf Hcol Hnn r Hr.
  assert (Hty := well_formed_column df column_name i Int64 Hwf Hcol r Hr).
  specialize (Hnn r Hr).
  destruct (nth i r None) as [[z|s|d|d]|]; try discriminate. eauto.
Qed.

Lemma no_nulls_some_value (df : DataFrame) (i : nat) :
  no_nulls df i -> rows df <> [] -> some_value df i = true.
Proof.
  unfold no_nulls, some_value. intros Hnn Hrows.
  destruct (rows df) as [|r l]; [contradiction|].
  cbn [existsb]. now rewrite (Hnn r (or_introl eq_refl)).
Qed.

(** A lambda that returns on every value. *)
Lemma apply_pure (env : PyEnv) {B} (f : cell -> result B) (g : cell -> B)
    (cells : list cell) :
  (forall c, In c cells -> has_value c = true -> f c = Ok (g c)) ->
  apply_from_first_value f cells
  = Ok (if existsb has_value cells
        then Some (map (fun c => if has_value c then Some (g c) else None)
                       cells)
        else None).
Proof.
  induction cells as [|[x|] cells IH]; intros E; cbn [apply_from_first_value];
    [reflexivity| |].
  - rewrite (E (Some x) (or_introl eq_refl) eq_refl). cbn [bind].
    rewrite (traverse_pure _
               (fun c => if has_value c then Some (g c) else None)).
    + reflexivity.
    + intros [y|] Hc; [|reflexivity]. unfold later_value.
      now rewrite (E (Some y) (or_intror Hc) eq_refl).
  - rewrite IH by (intros c Hc; apply E; now right).
    cbn [bind existsb has_value orb map].
    now destruct (existsb has_value cells).
Qed.

(** A lambda that returns on every integer of a 64-bit column with a
    value in some row: the rows kept are those the lambda accepts, and
    the rows with a null are dropped. *)
Lemma apply_to_integer_column (env : PyEnv) (f : cell -> result bool)
    (g : Z -> bool) (df : DataFrame) (column_name : string) (i : nat) :
  well_formed df ->
  find_column (schema df) column_name 0 = Some (i, Int64) ->
  some_value df i = true ->
  (forall r z, In r (rows df) -> nth i r None = Some (SInt z) ->
     f (Some (SInt z)) = Ok (g z)) ->
  apply_filter f column_name df
  = Ok (mkDataFrame (schema df)
          (filter (fun r => match nth i r None with
                            | Some (SInt z) => g z
                            | _ => false
                            end) (rows df))).
Proof.
  intros Hwf Hcol Hsome Hf. unfold apply_filter, df_column. rewrite Hcol.
  cbn [bind]. unfold series_apply. cbn [s_dtype s_values temporal].
  rewrite (apply_pure env f
             (fun c => match c with Some (SInt z) => g z | _ => false end)).
  - cbn [bind]. rewrite existsb_column. unfold some_value in Hsome.
    rewrite Hsome. cbn [df_getitem]. unfold df_filter. rewrite map_map.
    rewrite (select_map
               (fun r => if has_value (nth i r None)
                         then Some match nth i r None with
                                   | Some (SInt z) => g z
                                   | _ => false
                                   end
                         else None) (rows df)).
    do 2 f_equal. apply filter_ext. intros r.
    destruct (nth i r None) as [[z|?|?|?]|]; try reflexivity.
    unfold is_true. cbn [has_value]. now destruct (g z).
  - intros c Hc Hv. apply in_map_iff in Hc as [r [<- Hr]].
    assert (Hty := well_formed_column df column_name i Int64 Hwf Hcol r Hr).
    destruct (nth i r None) as [[z|?|?|?]|] eqn:E; try discriminate.
    exact (Hf r z Hr E).
Qed.

Lemma split_on_mod_integer_rows (env : PyEnv) (df : DataFrame)
    (column_name : string) (mod_ : Z) (batch_identifiers : batch_identifiers_t)
    (i : nat) (k : Z) :
  well_formed df -> find_column (schema df) column_name 0 = Some (i, Int64) ->
  no_nulls df i -> rows df <> [] -> mod_ <> 0 ->
  getitem batch_identifiers column_name = Ok (PInt k) ->
  split_on_mod_integer df column_name mod_ batch_identifiers
  = Ok (mkDataFrame (schema df)
          (class_of (fun r => remainder mod_ (nth i r None)) (rows df) k)).
Proof.
  intros Hwf Hcol Hnn Hrows Hm Hid. unfold split_on_mod_integer.
  rewrite Hid. cbn [bind].
  change (apply_filter
            (fun x => r <- py_mod x mod_ ;; Ok (py_eq r (PInt k)))
            column_name df
          = Ok (mkDataFrame (schema df)
                  (class_of (fun r => remainder mod_ (nth i r None))
                            (rows df) k))).
  rewrite (apply_to_integer_column env _ (fun z => z mod mod_ =? k) df
             column_name i Hwf Hcol (no_nulls_some_value df i Hnn Hrows)).
  - do 2 f_equal. apply filter_ext_in. intros r Hr.
    destruct (integer_cell df column_name i Hwf Hcol Hnn r Hr) as [z [-> _]].
    reflexivity.
  - intros r z _ _. cbn [py_mod].
    destruct (Z.eqb_spec mod_ 0); [contradiction | reflexivity].
Qed.

Lemma split_on_divided_integer_rows (env : PyEnv) (df : DataFrame)
    (column_name : string) (divisor : Z)
    (batch_identifiers : batch_identifiers_t) (i : nat) (k : Z) :
  well_formed df -> find_column (schema df) column_name 0 = Some (i, Int64) ->
  no_nulls df i -> rows df <> [] -> divisor <> 0 ->
  getitem batch_identifiers column_name = Ok (PInt k) ->
  split_on_divided_integer df column_name divisor batch_identifiers
  = Ok (mkDataFrame (schema df)
          (class_of (fun r => quotient divisor (nth i r None)) (rows df) k)).
Proof.
  intros Hwf Hcol Hnn Hrows Hd Hid. unfold split_on_divided_integer.
  rewrite Hid. cbn [bind].
  change (apply_filter
            (fun x => q <- py_truediv x divisor ;;
                      Ok (py_eq (SInt (py_int q)) (PInt k)))
            column_name df
          = Ok (mkDataFrame (schema df)
                  (class_of (fun r => quotient divisor (nth i r None))
                            (rows df) k))).
  rewrite (apply_to_integer_column env _
             (fun z => quotient divisor (Some (SInt z)) =? k) df
             column_name i Hwf Hcol (no_nulls_some_value df i Hnn Hrows)).
  - do 2 f_equal. apply filter_ext_in. intros r Hr.
    destruct (integer_cell df column_name i Hwf Hcol Hnn r Hr) as [z [-> _]].
    reflexivity.
  - intros r z Hr Hz. cbn [py_truediv quotient].
    assert (Hty := well_formed_column df column_name i Int64 Hwf Hcol r Hr).
    rewrite Hz in Hty. cbn [has_dtype in_range] in Hty.
    destruct (int_truediv_total z divisor Hty Hd) as [f ->]. reflexivity.
Qed.

Lemma getitem_single (key : string) (v : pyvalue) :
  getitem [(key, v)] key = Ok v.
Proof. unfold getitem. simpl. now rewrite String.eqb_refl. Qed.

Lemma classes_partition_table (key : list cell -> Z)
    (slice : Z -> result DataFrame) (ks : list Z) (df : DataFrame) :
  (forall k,
     slice k = Ok (mkDataFrame (schema df) (class_of key (rows df) k))) ->
  NoDup ks -> (forall r, In r (rows df) -> In (key r) ks) ->
  partitions slice ks df.
Proof.
  intros Hslice Hnd Hcov.
  exists (map (fun k => mkDataFrame (schema df) (class_of key (rows df) k)) ks).
  split; [apply traverse_pure; intros; apply Hslice|]. split.
  - rewrite map_map. cbn [rows]. now apply classes_partition.
  - intros k1 k2 d1 d2 r H1 H2. rewrite Hslice in H1, H2.
    inversion H1; inversion H2; subst. cbn [rows].
    apply class_of_disjoint.
Qed.

(** C5, as the code has it. On a well-formed table with at least one row
    whose split column is a 64-bit integer column without nulls: for a
    modulus [m > 0] the results of [split_on_mod_integer] for the
    identifier values 0, ..., m-1 are pairwise disjoint and contain,
    taken together, every row of the table exactly once; and for a
    divisor [d > 0] so do the results of [split_on_divided_integer] as
    the identifier value runs through the quotients of the column. *)
Theorem mod_and_divided_splits_partition
    (env : PyEnv) (df : DataFrame) (column_name : string) (i : nat) :
  well_formed df ->
  find_column (schema df) column_name 0 = Some (i, Int64) ->
  no_nulls df i ->
  rows df <> [] ->
  (forall m, 0 < m ->
     partitions
       (fun k => split_on_mod_integer df column_name m [(column_name, PInt k)])
       (range m) df)
  /\ (forall d, 0 < d ->
       partitions
         (fun q => split_on_divided_integer df column_name d
                     [(column_name, PInt q)])
         (quotients df i d) df).
Proof.
  intros Hwf Hcol Hnn Hrows. split.
  - intros m Hm.
    apply (classes_partition_table (fun r => remainder m (nth i r None))).
    + intros k. apply split_on_mod_integer_rows; try assumption; [lia|].
      apply getitem_single.
    + apply range_NoDup.
    + intros r Hr.
      destruct (integer_cell df column_name i Hwf Hcol Hnn r Hr) as [z [-> _]].
      apply range_In. simpl. apply Z.mod_pos_bound. exact Hm.
  - intros d Hd.
    apply (classes_partition_table (fun r => quotient d (nth i r None))).
    + intros k. apply split_on_divided_integer_rows; try assumption; [lia|].
      apply getitem_single.
    + apply NoDup_nodup.
    + intros r Hr. unfold quotients. apply nodup_In.
      apply (in_map (fun r => quotient d (nth i r None))). exact Hr.
Qed.

Lemma mod_and_divided_partition_witness :
  partitions
    (fun k => split_on_mod_integer (env := sample_env)
                (ints_table [5; 15; 25; -3]) "n" 3 [("n", PInt k)])
    (range 3) (ints_table [5; 15; 25; -3])
  /\ partitions
       (fun q => split_on_divided_integer (env := sample_env)
                   (ints_table [5; 15; 25; -3]) "n" 10 [("n", PInt q)])
       (quotients (ints_table [5; 15; 25; -3]) 0 10)
       (ints_table [5; 15; 25; -3]).
Proof.
  assert (Hnn : no_nulls (ints_table [5; 15; 25; -3]) 0).
  { intros r Hr. simpl in Hr.
    repeat (destruct Hr as [<-|Hr]; [reflexivity|]). destruct Hr. }
  destruct (mod_and_divided_splits_partition sample_env
              (ints_table [5; 15; 25; -3]) "n" 0%nat
              (well_formedb_sound (ints_table [5; 15; 25; -3]) eq_refl)
              eq_refl Hnn ltac:(discriminate)) as [Hmod Hdiv].
  split; [apply Hmod | apply Hdiv]; reflexivity.
Defined.

(** C5, as stated, fails. On the integer column without rows every call
    raises, so there is no family of slices; and on the column 4, null
    the two slices for the modulus 2 leave out the row with the null. *)
Lemma mod_slices_of_some_tables_do_not_partition :
  split_on_mod_integer (env := sample_env) (ints_table []) "n" 3
    [("n", PInt 0)]
  = Raise TypeError
  /\ ~ partitions
         (fun k => split_on_mod_integer (env := sample_env) (ints_table [])
                     "n" 3 [("n", PInt k)])
         (range 3) (ints_table [])
  /\ ~ partitions
         (fun k => split_on_mod_integer (env := sample_env)
                     (mkDataFrame [("n", Int64)] [[Some (SInt 4)]; [None]])
                     "n" 2 [("n", PInt k)])
         (range 2) (mkDataFrame [("n", Int64)] [[Some (SInt 4)]; [None]]).
Proof.
  split; [reflexivity|]. split.
  - intros [parts [H _]]. vm_compute in H. discriminate.
  - intros [parts [H [Hperm _]]]. vm_compute in H. inversion H; subst parts.
    apply Permutation_length in Hperm. vm_compute in Hperm. discriminate.
Qed.

Example mod_slices :
  traverse
    (fun k => split_on_mod_integer (env := sample_env)
                (ints_table [5; 15; 25; -3]) "n" 3 [("n", PInt k)])
    (range 3)
  = Ok [ints_table [15; -3]; ints_table [25]; ints_table [5]].
Proof. reflexivity. Qed.

Example divided_slices :
  quotients (ints_table [5; 15; 25; -3]) 0 10 = [1; 2; 0]
  /\ traverse
       (fun q => split_on_divided_integer (env := sample_env)
                   (ints_table [5; 15; 25; -3]) "n" 10 [("n", PInt q)])
       [1; 2; 0]
     = Ok [ints_table [15]; ints_table [25]; ints_table [5; -3]].
Proof. split; reflexivity. Qed.

(** The scenario of the spec: divisor 10 on 5, 15, 25 with identifier 1. *)
Example divided_integer_scenario :
  split_on_divided_integer (env := sample_env) (ints_table [5; 15; 25]) "n" 10
    [("n", PInt 1)]
  = Ok (ints_table [15]).
Proof. reflexivity. Qed.

(** Rows with a null in the split column belong to no slice. *)
Example null_rows_are_in_no_slice :
  traverse
    (fun k => split_on_mod_integer (env := sample_env)
                (mkDataFrame [("n", Int64)] [[Some (SInt 4)]; [None]]) "n" 2
                [("n", PInt k)])
    (range 2)
  = Ok [mkDataFrame [("n", Int64)] [[Some (SInt 4)]];
        mkDataFrame [("n", Int64)] []].
Proof. reflexivity. Qed.

(** * Further properties of the splitter *)

(** ** Every split narrows the table *)












Ltac conjuncts := repeat match goal with |- _ /\ _ => split end.




(** ** Multi-column values, characterised *)

Lemma multi_column_success (env : PyEnv) (sch : list (string * dtype))
    (batch_identifiers : batch_identifiers_t) (column_names : list string) :
  forallb (filterable sch batch_identifiers) column_names = true ->
  forall rws,
    split_on_multi_column_values (mkDataFrame sch rws) column_names
      batch_identifiers
    = Ok (mkDataFrame sch
            (filter (matches_identifiers sch batch_identifiers column_names)
                    rws)).
Proof.
  unfold split_on_multi_column_values.
  induction column_names as [|c names IH]; intros Hall rws.
  - cbn [for_each]. unfold matches_identifiers. cbn [forallb].
    now rewrite filter_all.
  - cbn [forallb] in Hall. apply andb_prop in Hall as [Hc Hnames].
    destruct (filterable_turn env sch batch_identifiers c Hc)
      as [i [test [Htest [Ht Hturn]]]].
    cbn [for_each]. cbv zeta. rewrite Ht. cbn [negb].
    rewrite Hturn. cbn [bind]. rewrite (IH Hnames), filter_filter.
    do 2 f_equal. apply filter_ext. intros r.
    unfold matches_identifiers. cbn [forallb]. now rewrite Htest.
Qed.

Lemma multi_column_failure (env : PyEnv) (sch : list (string * dtype))
    (batch_identifiers : batch_identifiers_t) (column_names : list string) :
  forallb (filterable sch batch_identifiers) column_names = false ->
  forall rws, exists e,
    split_on_multi_column_values (mkDataFrame sch rws) column_names
      batch_identifiers
    = Raise e.
Proof.
  unfold split_on_multi_column_values.
  induction column_names as [|c names IH]; intros Hsome rws;
    [discriminate|].
  cbn [forallb] in Hsome. cbn [for_each]. cbv zeta.
  unfold filterable at 1, column_test in Hsome.
  destruct (truthy (get batch_identifiers c)); cbn [negb];
    [|eexists; reflexivity].
  destruct (find_column sch c 0) as [[i t]|] eqn:Hcol.
  - rewrite (equality_filter_rows env sch rws c i t _ Hcol).
    destruct (comparand t (get batch_identifiers c)) as [test|e];
      [|eexists; reflexivity].
    cbn [bind]. apply IH. exact Hsome.
  - unfold df_column. cbn [schema]. rewrite Hcol. eexists. reflexivity.
Qed.

Lemma multi_column_outcome (env : PyEnv) (df : DataFrame)
    (batch_identifiers : batch_identifiers_t) (column_names : list string)
    (d : DataFrame) :
  split_on_multi_column_values df column_names batch_identifiers = Ok d ->
  forallb (filterable (schema df) batch_identifiers) column_names = true
  /\ d = mkDataFrame (schema df)
           (filter (matches_identifiers (schema df) batch_identifiers
                      column_names) (rows df)).
Proof.
  destruct df as [sch rws]. cbn [schema rows]. intros H.
  destruct (forallb (filterable sch batch_identifiers) column_names) eqn:E.
  - rewrite (multi_column_success env sch batch_identifiers column_names E)
      in H.
    inversion H. now split.
  - destruct (multi_column_failure env sch batch_identifiers column_names E
                rws) as [e He].
    congruence.
Qed.

(** X2. When every named column has a truthy identifier, is a column of
    the table and can be compared with its identifier (the cast the
    library makes of the identifier succeeds),
    [split_on_multi_column_values] returns the table's columns with
    exactly the rows that pass, in every named column, the test of that
    column's identifier: a logical AND across the columns. In every other
    case it raises. *)
Theorem multi_column_split_keeps_rows_matching_all
    (env : PyEnv) (df : DataFrame) (column_names : list string)
    (batch_identifiers : batch_identifiers_t) :
  (forallb (filterable (schema df) batch_identifiers) column_names = true ->
   split_on_multi_column_values df column_names batch_identifiers
   = Ok (mkDataFrame (schema df)
           (filter (matches_identifiers (schema df) batch_identifiers
                      column_names) (rows df))))
  /\ (forallb (filterable (schema df) batch_identifiers) column_names = false ->
      exists e,
        split_on_multi_column_values df column_names batch_identifiers
        = Raise e).
Proof.
  destruct df as [sch rws]. cbn [schema rows]. split; intros H.
  - now apply multi_column_success.
  - now apply multi_column_failure.
Qed.

Lemma multi_column_split_witness :
  split_on_multi_column_values (env := sample_env) two_dates ["id"; "date"]
    [("id", PStr "2"); ("date", PDate (mkDate 2022 5 1))]
  = Ok (mkDataFrame [("id", Int64); ("date", Date)]
          [[Some (SInt 2); Some (SDate (mkDate 2022 5 1))]])
  /\ exists e,
       split_on_multi_column_values (env := sample_env) two_dates
         ["id"; "date"] [("id", PStr "two"); ("date", PDate (mkDate 2022 5 1))]
       = Raise e.
Proof.
  split.
  - exact (proj1 (multi_column_split_keeps_rows_matching_all sample_env
                    two_dates ["id"; "date"]
                    [("id", PStr "2"); ("date", PDate (mkDate 2022 5 1))])
             eq_refl).
  - exact (proj2 (multi_column_split_keeps_rows_matching_all sample_env
                    two_dates ["id"; "date"]
                    [("id", PStr "two"); ("date", PDate (mkDate 2022 5 1))])
             eq_refl).
Defined.

Lemma forallb_same_members {A} (f : A -> bool) (l l' : list A) :
  (forall a, In a l <-> In a l') -> forallb f l = forallb f l'.
Proof.
  intros H.
  assert (Hhalf : forall l1 l2 : list A,
             (forall a, In a l2 -> In a l1) ->
             forallb f l1 = true -> forallb f l2 = true).
  { intros l1 l2 Hin. rewrite !forallb_forall. intros E a Ha.
    apply E, Hin, Ha. }
  destruct (forallb f l) eqn:E, (forallb f l') eqn:E'; try reflexivity.
  - rewrite (Hhalf l l') in E'; [discriminate| |exact E].
    intros a. apply H.
  - rewrite (Hhalf l' l) in E; [discriminate| |exact E'].
    intros a. apply H.
Qed.

(** X3. The result of [split_on_multi_column_values] depends on which
    columns are named, not on their order or on repetitions: two lists
    with the same members give a dataframe in the same cases, and then
    the same dataframe. *)
Theorem multi_column_split_ignores_order_and_repeats
    (env : PyEnv) (df : DataFrame) (column_names column_names' : list string)
    (batch_identifiers : batch_identifiers_t) :
  (forall c, In c column_names <-> In c column_names') ->
  forall d,
    split_on_multi_column_values df column_names batch_identifiers = Ok d
    <-> split_on_multi_column_values df column_names' batch_identifiers
        = Ok d.
Proof.
  assert (Hhalf : forall names names',
             (forall c, In c names <-> In c names') ->
             forall d,
               split_on_multi_column_values df names batch_identifiers = Ok d ->
               split_on_multi_column_values df names' batch_identifiers
               = Ok d).
  { intros names names' Hsame d H.
    apply multi_column_outcome in H as [Hall ->].
    rewrite (forallb_same_members _ names names' Hsame) in Hall.
    destruct df as [sch rws]. cbn [schema rows] in *.
    rewrite (multi_column_success env sch batch_identifiers names' Hall).
    do 2 f_equal. apply filter_ext. intros r. unfold matches_identifiers.
    symmetry. now apply forallb_same_members. }
  intros Hsame d. split; apply Hhalf; [exact Hsame|].
  intros c. symmetry. apply Hsame.
Qed.

Lemma multi_column_order_witness :
  split_on_multi_column_values (env := sample_env) two_dates
    ["id"; "date"; "id"]
    [("id", PInt 2); ("date", PDate (mkDate 2022 5 1))]
  = Ok (mkDataFrame [("id", Int64); ("date", Date)]
          [[Some (SInt 2); Some (SDate (mkDate 2022 5 1))]])
  <-> split_on_multi_column_values (env := sample_env) two_dates
        ["date"; "id"]
        [("id", PInt 2); ("date", PDate (mkDate 2022 5 1))]
      = Ok (mkDataFrame [("id", Int64); ("date", Date)]
              [[Some (SInt 2); Some (SDate (mkDate 2022 5 1))]]).
Proof.
  apply (multi_column_split_ignores_order_and_repeats sample_env two_dates
           ["id"; "date"; "id"] ["date"; "id"]).
  intros c. simpl. tauto.
Defined.

Lemma for_each_ext {A S} (f g : S -> A -> result S) (l : list A) :
  (forall s a, In a l -> f s a = g s a) ->
  forall s, for_each f l s = for_each g l s.
Proof.
  induction l as [|a l IH]; intros E s; simpl; [reflexivity|].
  rewrite (E s a (or_introl eq_refl)).
  destruct (g s a) as [s'|e]; [|reflexivity]. simpl. apply IH.
  intros s0 b Hb. apply E. now right.
Qed.

Lemma truthy_identifier_is_present (batch_identifiers : batch_identifiers_t)
    (c : string) :
  truthy (get batch_identifiers c) = true ->
  getitem batch_identifiers c = Ok (get batch_identifiers c).
Proof.
  unfold get, getitem.
  destruct (dict_get String.eqb batch_identifiers c); [reflexivity|].
  discriminate.
Qed.

(** X4. When every named column has a truthy identifier,
    [split_on_multi_column_values] is [split_on_column_value] applied
    column after column, each to the result of the one before, errors
    included. *)
Theorem multi_column_split_is_repeated_column_value_split
    (env : PyEnv) (df : DataFrame) (column_names : list string)
    (batch_identifiers : batch_identifiers_t) :
  (forall c, In c column_names ->
     truthy (get batch_identifiers c) = true) ->
  split_on_multi_column_values df column_names batch_identifiers
  = for_each (fun d c => split_on_column_value d c batch_identifiers)
             column_names df.
Proof.
  intros Htruthy. unfold split_on_multi_column_values.
  apply for_each_ext. intros d c Hc. cbv zeta.
  rewrite (Htruthy c Hc). cbn [negb]. unfold split_on_column_value.
  rewrite (truthy_identifier_is_present _ _ (Htruthy c Hc)).
  now destruct (df_column d c).
Qed.

Lemma multi_column_repeated_witness :
  split_on_multi_column_values (env := sample_env) two_dates ["id"; "date"]
    [("id", PInt 2); ("date", PDate (mkDate 2022 5 1))]
  = for_each
      (fun d c =>
         split_on_column_value (env := sample_env) d c
           [("id", PInt 2); ("date", PDate (mkDate 2022 5 1))])
      ["id"; "date"] two_dates.
Proof.
  apply (multi_column_split_is_repeated_column_value_split sample_env
           two_dates ["id"; "date"]
           [("id", PInt 2); ("date", PDate (mkDate 2022 5 1))]).
  intros c [<-|[<-|[]]]; reflexivity.
Defined.

(** ** Date parts, whatever the helpers *)

Lemma split_on_date_parts_with_dict (env : PyEnv) (self : DataSplitter)
    (df : DataFrame) (column_name : string)
    (batch_identifiers : batch_identifiers_t)
    (date_parts : list date_part_arg) (parts : list DatePart) (v : pyvalue)
    (date_parts_dict : dict DatePart pyvalue) :
  _validate_date_parts date_parts = Ok tt ->
  _convert_date_parts date_parts = Ok parts ->
  getitem batch_identifiers column_name = Ok v ->
  _convert_datetime_batch_identifiers_to_date_parts_dict v parts
  = Ok date_parts_dict ->
  split_on_date_parts df column_name batch_identifiers date_parts
  = date_part_filters column_name date_parts_dict df.
Proof.
  intros Hv Hc Hid Hd. unfold split_on_date_parts.
  rewrite Hv. cbn [bind]. rewrite Hc. cbn [bind]. rewrite Hid. cbn [bind].
  rewrite Hd. reflexivity.
Qed.

(** X5. Once the helpers of the base class have accepted the date parts
    and turned the identifier into a dict of targets, the outcome of
    [split_on_date_parts] is settled by the table and the targets: an
    empty dict returns the table as it is, even when the column does not
    exist; otherwise a missing column raises [ColumnNotFoundError], a
    column that is not temporal raises the [ValueError] of the accessor,
    and on a temporal column the targets are cast in the order of the
    dict: the first that cannot be cast ends the call with the exception
    of its cast, and when all can, the rows whose parts pass the test of
    every target are returned. *)
Theorem date_part_split_outcomes
    (env : PyEnv) (self : DataSplitter) (df : DataFrame)
    (column_name : string) (batch_identifiers : batch_identifiers_t)
    (date_parts : list date_part_arg) (parts : list DatePart) (v : pyvalue)
    (date_parts_dict : dict DatePart pyvalue) :
  _validate_date_parts date_parts = Ok tt ->
  _convert_date_parts date_parts = Ok parts ->
  getitem batch_identifiers column_name = Ok v ->
  _convert_datetime_batch_identifiers_to_date_parts_dict v parts
  = Ok date_parts_dict ->
  split_on_date_parts df column_name batch_identifiers date_parts
  = match date_parts_dict, find_column (schema df) column_name 0 with
    | [], _ => Ok df
    | _ :: _, None => Raise (ColumnNotFoundError column_name)
    | _ :: _, Some (i, t) =>
        if temporal t
        then tests <- date_part_tests date_parts_dict ;;
             Ok (mkDataFrame (schema df)
                   (filter (matches_all i tests) (rows df)))
        else Raise (ValueError accessor_message)
    end.
Proof.
  intros Hv Hc Hid Hd.
  rewrite (split_on_date_parts_with_dict env self df column_name
             batch_identifiers date_parts parts v date_parts_dict
             Hv Hc Hid Hd).
  apply date_part_filters_spec.
Qed.

Lemma date_part_split_outcomes_witness :
  split_on_date_parts (env := sample_env)
    (self := SpecDataSplitter (env := sample_env)) two_dates
    "id" [("id", PDate (mkDate 2021 5 1))] [Text "Month"]
  = Raise (ValueError (accessor_message (PyEnv := sample_env)))
  /\ split_on_date_parts (env := sample_env)
       (self := SpecDataSplitter (env := sample_env)) two_dates
       "date" [("date", PDict [("month", PNone)])] [Text "Month"]
     = Raise TypeError.
Proof.
  split.
  - exact (date_part_split_outcomes sample_env
             (SpecDataSplitter (env := sample_env))
             two_dates "id" [("id", PDate (mkDate 2021 5 1))] [Text "Month"]
             [MONTH] (PDate (mkDate 2021 5 1)) [(MONTH, PInt 5)]
             eq_refl eq_refl eq_refl eq_refl).
  - exact (date_part_split_outcomes sample_env
             (SpecDataSplitter (env := sample_env))
             two_dates "date" [("date", PDict [("month", PNone)])]
             [Text "Month"] [MONTH] (PDict [("month", PNone)])
             [(MONTH, PNone)] eq_refl eq_refl eq_refl eq_refl).
Defined.

Lemma traverse_permutation {A B} (f : A -> result B) (l1 l2 : list A) :
  Permutation l1 l2 ->
  match traverse f l1, traverse f l2 with
  | Ok out1, Ok out2 => Permutation out1 out2
  | Raise _, Raise _ => True
  | _, _ => False
  end.
Proof.
  induction 1 as [|x l l' _ IH|x y l|l l' l'' _ IH1 _ IH2]; cbn [traverse].
  - apply perm_nil.
  - destruct (f x) as [b|e]; cbn [bind]; [|exact I].
    destruct (traverse f l) as [out|e], (traverse f l') as [out'|e'];
      cbn [bind]; try assumption. now apply perm_skip.
  - destruct (f x) as [b|e], (f y) as [b'|e']; cbn [bind]; try exact I.
    destruct (traverse f l) as [out|e]; cbn [bind]; [|exact I].
    apply perm_swap.
  - destruct (traverse f l) as [out|e], (traverse f l') as [out'|e'],
      (traverse f l'') as [out''|e'']; try assumption; try contradiction.
    exact (perm_trans IH1 IH2).
Qed.

Lemma date_part_filters_permutation (env : PyEnv) (column_name : string)
    (dict1 dict2 : dict DatePart pyvalue) (df : DataFrame) :
  Permutation dict1 dict2 ->
  alike (date_part_filters column_name dict1 df)
        (date_part_filters column_name dict2 df).
Proof.
  intros Hperm. rewrite !date_part_filters_spec.
  destruct dict1 as [|e1 dict1].
  - apply Permutation_nil in Hperm. subst. apply alike_refl.
  - destruct dict2 as [|e2 dict2].
    + symmetry in Hperm. apply Permutation_nil in Hperm. discriminate.
    + destruct (find_column (schema df) column_name 0) as [[i t]|];
        [|exact I].
      destruct (temporal t); [|exact I]. unfold date_part_tests.
      pose proof (traverse_permutation
                    (fun '(p, v) =>
                       test <- comparand (part_dtype p) v ;; Ok (p, test))
                    _ _ Hperm) as Htests.
      destruct (traverse _ (e1 :: dict1)) as [tests1|],
               (traverse _ (e2 :: dict2)) as [tests2|];
        try contradiction; cbn [bind alike]; [|exact I].
      f_equal. apply filter_ext. intros r. unfold matches_all.
      apply forallb_same_members. intros a. split; apply Permutation_in;
        [exact Htests | symmetry; exact Htests].
Qed.

(** X6. The order in which the helpers list the targets does not decide
    whether the split succeeds, nor its result: two calls whose dicts of
    targets hold the same entries in a different order return a dataframe
    in the same cases, and then the same dataframe; when one raises so
    does the other, though not always the same exception. *)
Theorem date_part_split_ignores_dict_order
    (env : PyEnv) (self : DataSplitter) (df : DataFrame)
    (column_name : string) (batch_identifiers : batch_identifiers_t)
    (v : pyvalue) (date_parts1 date_parts2 : list date_part_arg)
    (parts1 parts2 : list DatePart)
    (dict1 dict2 : dict DatePart pyvalue) :
  getitem batch_identifiers column_name = Ok v ->
  _validate_date_parts date_parts1 = Ok tt ->
  _convert_date_parts date_parts1 = Ok parts1 ->
  _convert_datetime_batch_identifiers_to_date_parts_dict v parts1
  = Ok dict1 ->
  _validate_date_parts date_parts2 = Ok tt ->
  _convert_date_parts date_parts2 = Ok parts2 ->
  _convert_datetime_batch_identifiers_to_date_parts_dict v parts2
  = Ok dict2 ->
  Permutation dict1 dict2 ->
  (forall d,
     split_on_date_parts df column_name batch_identifiers date_parts1 = Ok d
     <-> split_on_date_parts df column_name batch_identifiers date_parts2
         = Ok d)
  /\ ((exists e,
         split_on_date_parts df column_name batch_identifiers date_parts1
         = Raise e)
      <-> (exists e,
             split_on_date_parts df column_name batch_identifiers date_parts2
             = Raise e)).
Proof.
  intros Hid Hv1 Hc1 Hd1 Hv2 Hc2 Hd2 Hperm.
  rewrite (split_on_date_parts_with_dict env self df column_name
             batch_identifiers date_parts1 parts1 v dict1 Hv1 Hc1 Hid Hd1).
  rewrite (split_on_date_parts_with_dict env self df column_name
             batch_identifiers date_parts2 parts2 v dict2 Hv2 Hc2 Hid Hd2).
  apply alike_outcomes. now apply date_part_filters_permutation.
Qed.

Lemma date_part_split_dict_order_witness :
  (forall d,
     split_on_date_parts (env := sample_env)
       (self := SpecDataSplitter (env := sample_env)) two_dates "date"
       [("date", PDate (mkDate 2021 5 1))] [Text "day"; Text "YEAR"] = Ok d
     <-> split_on_date_parts (env := sample_env)
           (self := SpecDataSplitter (env := sample_env)) two_dates "date"
           [("date", PDate (mkDate 2021 5 1))] [Member YEAR; Member DAY]
         = Ok d)
  /\ ((exists e,
         split_on_date_parts (env := sample_env)
           (self := SpecDataSplitter (env := sample_env)) two_dates "date"
           [("date", PDate (mkDate 2021 5 1))] [Text "day"; Text "YEAR"]
         = Raise e)
      <-> (exists e,
             split_on_date_parts (env := sample_env)
               (self := SpecDataSplitter (env := sample_env)) two_dates "date"
               [("date", PDate (mkDate 2021 5 1))] [Member YEAR; Member DAY]
             = Raise e)).
Proof.
  apply (date_part_split_ignores_dict_order sample_env
           (SpecDataSplitter (env := sample_env)) two_dates "date"
           [("date", PDate (mkDate 2021 5 1))] (PDate (mkDate 2021 5 1))
           [Text "day"; Text "YEAR"] [Member YEAR; Member DAY]
           [DAY; YEAR] [YEAR; DAY]
           [(DAY, PInt 1); (YEAR, PInt 2021)]
           [(YEAR, PInt 2021); (DAY, PInt 1)]);
    try reflexivity.
  apply perm_swap.
Defined.

(** Two targets that cannot be cast: the exception is that of the target
    the dict lists first. *)
Example uncastable_targets_raise_in_dict_order :
  date_part_filters (env := sample_env) "date"
    [(YEAR, PStr "abc"); (MONTH, PNone)] two_dates
  = Raise (ValueError "invalid literal for int() with base 10: 'abc'")
  /\ date_part_filters (env := sample_env) "date"
       [(MONTH, PNone); (YEAR, PStr "abc")] two_dates
     = Raise TypeError.
Proof. split; reflexivity. Qed.

(** ** Splitting twice *)

Lemma select_nothing {A} (mask : list (option bool)) :
  select mask (@nil A) = [].
Proof. now destruct mask as [|[[|]|] mask]. Qed.

Lemma select_map_commute {A B} (c : A -> B) (mask : list (option bool))
    (l : list A) :
  select mask (map c l) = map c (select mask l).
Proof.
  revert mask. induction l as [|a l IH]; intros mask; simpl.
  - now rewrite !select_nothing.
  - destruct mask as [|[[|]|] mask]; simpl; now rewrite ?IH.
Qed.

Lemma select_twice {A} (mask : list (option bool)) (l : list A) :
  select (select mask mask) (select mask l) = select mask l.
Proof.
  revert l. induction mask as [|m mask IH]; intros l; [reflexivity|].
  destruct l as [|a l]; [now rewrite !select_nothing|].
  destruct m as [[|]|]; simpl; [now rewrite IH | apply IH | apply IH].
Qed.

Lemma select_rows_nonempty {A B} (mask : list (option bool)) (l : list A)
    (c : A -> B) :
  select mask l <> [] -> select mask (map c l) <> [].
Proof.
  rewrite select_map_commute. destruct (select mask l); [congruence|].
  discriminate.
Qed.

(** The entries a mask marks: they have what the mask stands for, and
    the mask, cut down to them, is true throughout. *)
Lemma select_marked {A} (P : A -> Prop) (l : list A)
    (mask : list (option bool)) :
  Forall2 (fun a b => is_true b = true -> P a) l mask ->
  Forall P (select mask l)
  /\ select mask mask = map (fun _ => Some true) (select mask l).
Proof.
  induction 1 as [|a b l mask Hab _ [IH1 IH2]]; [now split|].
  destruct b as [[|]|]; cbn [select map]; try (now split).
  split; [constructor; [now apply Hab | exact IH1] | now rewrite IH2].
Qed.

Lemma later_values_marked (env : PyEnv) (f : cell -> result bool)
    (cells : list cell) :
  forall values,
    traverse (later_value f) cells = Ok values ->
    Forall2 (fun c b => is_true b = true ->
                        f c = Ok true /\ has_value c = true) cells values.
Proof.
  induction cells as [|c cells IH]; intros values H; cbn [traverse] in H.
  - inversion H. constructor.
  - destruct (later_value f c) as [b|e] eqn:Hc; [|discriminate].
    cbn [bind] in H.
    destruct (traverse (later_value f) cells) as [bs|e]; [|discriminate].
    inversion H. constructor; [|now apply IH].
    intros Hb. unfold later_value in Hc. destruct c as [x|].
    + destruct (f (Some x)) as [[|]|e].
      * now split.
      * inversion Hc; subst b. discriminate.
      * destruct later_faults_are_nulls; inversion Hc; subst b.
        discriminate.
    + inversion Hc; subst b. discriminate.
Qed.

Lemma applied_values_marked (env : PyEnv) (f : cell -> result bool)
    (cells : list cell) :
  forall mask,
    apply_from_first_value f cells = Ok (Some mask) ->
    Forall2 (fun c b => is_true b = true ->
                        f c = Ok true /\ has_value c = true) cells mask.
Proof.
  induction cells as [|[x|] cells IH]; intros mask H;
    cbn [apply_from_first_value] in H; [discriminate| |].
  - destruct (f (Some x)) as [b|e] eqn:Hx; [|discriminate]. cbn [bind] in H.
    destruct (traverse (later_value f) cells) as [values|e] eqn:Hl;
      [|discriminate].
    inversion H. constructor; [|now apply (later_values_marked env)].
    intros Hb. destruct b; [now split | discriminate].
  - destruct (apply_from_first_value f cells) as [[values|]|e];
      try discriminate.
    inversion H. constructor; [discriminate | now apply IH].
Qed.

Lemma traversed_values_marked {A} (f : A -> result bool) (l : list A) :
  forall values,
    traverse f l = Ok values ->
    Forall2 (fun a b => is_true b = true -> f a = Ok true)
            l (map Some values).
Proof.
  induction l as [|a l IH]; intros values H; cbn [traverse] in H.
  - inversion H. constructor.
  - destruct (f a) as [b|e] eqn:Ha; [|discriminate]. cbn [bind] in H.
    destruct (traverse f l) as [bs|e]; [|discriminate].
    inversion H. constructor; [|now apply IH].
    intros Hb. now destruct b.
Qed.

(** [apply] on the cells a typed result of [apply] marks true. *)
Lemma series_apply_selected (env : PyEnv) (f : cell -> result bool)
    (t : dtype) (cells : list cell) (mask : list (option bool)) :
  series_apply f (mkSeries t cells) = Ok (Typed mask) ->
  select mask cells <> [] ->
  series_apply f (mkSeries t (select mask cells))
  = Ok (Typed (select mask mask)).
Proof.
  unfold series_apply. cbn [s_dtype s_values].
  destruct (temporal t).
  - destruct cells as [|c0 cells].
    + intros _ Hsel. now rewrite select_nothing in Hsel.
    + destruct (traverse f (c0 :: cells)) as [values|e] eqn:Hout;
        [|discriminate].
      intros H Hsel. inversion H; subst mask. clear H.
      destruct (select_marked _ _ _ (traversed_values_marked f _ _ Hout))
        as [Hall ->].
      destruct (select (map Some values) (c0 :: cells)) as [|c1 sel];
        [congruence|].
      rewrite (traverse_pure f (fun _ => true)), map_map; [reflexivity|].
      intros c Hc. exact (proj1 (Forall_forall _ _) Hall c Hc).
  - destruct (apply_from_first_value f cells) as [[values|]|e] eqn:Hout;
      try discriminate.
    cbn [bind]. intros H Hsel. inversion H; subst values. clear H.
    destruct (select_marked _ _ _ (applied_values_marked env f _ _ Hout))
      as [Hall ->].
    rewrite (apply_pure env f (fun _ => true)).
    + cbn [bind].
      assert (Hval : forall c, In c (select mask cells) -> has_value c = true)
        by (intros c Hc; exact (proj2 (proj1 (Forall_forall _ _) Hall c Hc))).
      destruct (select mask cells) as [|c1 sel]; [congruence|].
      cbn [existsb]. rewrite (Hval c1 (or_introl eq_refl)). cbn [orb].
      do 2 f_equal. apply map_ext_in. intros c Hc. now rewrite (Hval c Hc).
    + intros c Hc _. exact (proj1 (proj1 (Forall_forall _ _) Hall c Hc)).
Qed.

Lemma select_in {A} (mask : list (option bool)) (l : list A) (a : A) :
  In a (select mask l) -> In a l.
Proof.
  revert mask. induction l as [|b l IH]; intros mask H.
  - now rewrite select_nothing in H.
  - destruct mask as [|[[|]|] mask]; cbn [select] in H;
      try destruct H as [->|H]; try (now left); try (right; eauto);
      destruct H.
Qed.

Lemma apply_without_value (env : PyEnv) {B} (f : cell -> result B)
    (cells : list cell) :
  apply_from_first_value f cells = Ok None -> existsb has_value cells = false.
Proof.
  induction cells as [|[x|] cells IH]; cbn [apply_from_first_value];
    [reflexivity| |].
  - destruct (f (Some x)); [|discriminate]. cbn [bind].
    destruct (traverse _ cells); discriminate.
  - destruct (apply_from_first_value f cells) as [[values|]|e];
      try discriminate.
    intros _. now apply IH.
Qed.

(** A split by a row-level lambda returns again the table it returned,
    when that table has rows and no null in the column. *)
Lemma apply_filter_settled (env : PyEnv) (f : cell -> result bool)
    (column_name : string) (df : DataFrame) :
  settled_with_values (apply_filter f column_name) column_name
                      (apply_filter f column_name df).
Proof.
  intros d i t H Hd Hrows Hnn. unfold apply_filter, df_column in *.
  destruct (find_column (schema df) column_name 0) as [[i0 t0]|] eqn:Hcol;
    [|discriminate].
  cbn [bind] in H.
  destruct (series_apply f _) as [[mask|t']|] eqn:Happly; try discriminate.
  - cbn [bind df_getitem] in H. inversion H; subst d. clear H.
    unfold df_filter in *. cbn [schema rows] in *. rewrite Hcol. cbn [bind].
    rewrite <- select_map_commute.
    rewrite (series_apply_selected env f t0 _ mask Happly).
    + cbn [bind df_getitem]. unfold df_filter. cbn [schema rows].
      now rewrite select_twice.
    + now apply select_rows_nonempty.
  - exfalso.
    assert (Hsub : schema d = schema df
                   /\ forall r, In r (rows d) -> In r (rows df)).
    { cbn [bind] in H. destruct t'; cbn [df_getitem] in H; try discriminate;
        (destruct (index_untyped _) as [mask|]; [|discriminate]);
        cbn [bind] in H; inversion H; unfold df_filter; cbn [schema rows];
        (split; [reflexivity | intros r; apply select_in]). }
    destruct Hsub as [Hschema Hsub]. rewrite Hschema, Hcol in Hd.
    inversion Hd; subst i0 t0. clear Hd.
    destruct (rows d) as [|r rws] eqn:Hr; [contradiction|].
    assert (Hin : In r (rows df)) by (apply Hsub; now left).
    unfold no_nulls in Hnn. rewrite Hr in Hnn.
    specialize (Hnn r (or_introl eq_refl)).
    unfold series_apply in Happly. cbn [s_dtype s_values] in Happly.
    destruct (temporal t).
    + destruct (rows df) as [|r0 rws0]; [destruct Hin|]. cbn [map] in Happly.
      destruct (traverse f _); discriminate.
    + destruct (apply_from_first_value f _) as [[values|]|e] eqn:Hnone;
        try discriminate.
      apply apply_without_value in Hnone. rewrite existsb_column in Hnone.
      assert (Hex : existsb (fun r => has_value (nth i r None)) (rows df)
                    = true)
        by (apply existsb_exists; now exists r).
      congruence.
Qed.

Lemma date_part_filters_settled (env : PyEnv) (column_name : string)
    (date_parts_dict : dict DatePart pyvalue) (df : DataFrame) :
  settled (date_part_filters column_name date_parts_dict)
          (date_part_filters column_name date_parts_dict df).
Proof.
  intros d H. rewrite date_part_filters_spec in H.
  destruct date_parts_dict as [|e dict]; [reflexivity|].
  destruct (find_column (schema df) column_name 0) as [[i t]|] eqn:Hcol;
    [|discriminate].
  destruct (temporal t) eqn:Ht; [|discriminate].
  destruct (date_part_tests (e :: dict)) as [tests|] eqn:Htests;
    [|discriminate].
  inversion H; subst d. rewrite date_part_filters_spec.
  cbn [schema rows]. rewrite Hcol, Ht, Htests. cbn [bind].
  now rewrite filter_idem.
Qed.

(** X7. The splits by equality are idempotent: when
    [split_on_column_value], [split_on_multi_column_values] or
    [split_on_date_parts] returns a dataframe, the same split of that
    dataframe, with the same arguments, returns it again. For the splits
    by a row-level lambda, [split_on_divided_integer],
    [split_on_mod_integer] and [split_on_hashed_column], this holds when
    the dataframe returned has at least one row and no null in the split
    column. *)
Theorem splits_are_idempotent
    (env : PyEnv) (self : DataSplitter) (df : DataFrame)
    (column_name : string) (column_names : list string)
    (batch_identifiers : batch_identifiers_t)
    (date_parts : list date_part_arg)
    (divisor mod_ hash_digits : Z) (hash_function_name : string) :
  settled (fun d => split_on_column_value d column_name batch_identifiers)
          (split_on_column_value df column_name batch_identifiers)
  /\ settled
       (fun d => split_on_multi_column_values d column_names batch_identifiers)
       (split_on_multi_column_values df column_names batch_identifiers)
  /\ settled
       (fun d => split_on_date_parts d column_name batch_identifiers
                   date_parts)
       (split_on_date_parts df column_name batch_identifiers date_parts)
  /\ settled_with_values
       (fun d => split_on_divided_integer d column_name divisor
                   batch_identifiers)
       column_name
       (split_on_divided_integer df column_name divisor batch_identifiers)
  /\ settled_with_values
       (fun d => split_on_mod_integer d column_name mod_ batch_identifiers)
       column_name
       (split_on_mod_integer df column_name mod_ batch_identifiers)
  /\ settled_with_values
       (fun d => split_on_hashed_column d column_name hash_digits
                   batch_identifiers hash_function_name)
       column_name
       (split_on_hashed_column df column_name hash_digits batch_identifiers
          hash_function_name).
Proof.
  conjuncts.
  - intros d H.
    destruct (find_column (schema df) column_name 0) as [[i t]|] eqn:Hcol.
    + destruct (getitem batch_identifiers column_name) as [v|e] eqn:Hid.
      * rewrite (split_on_column_value_filters env df column_name
                   batch_identifiers i t v Hcol Hid) in H.
        destruct (comparand t v) as [test|] eqn:Hcmp; [|discriminate].
        cbn [bind] in H. inversion H; subst d. cbv beta.
        erewrite (split_on_column_value_filters env _ column_name
                    batch_identifiers i t v); [|exact Hcol|exact Hid].
        rewrite Hcmp. cbn [bind schema rows]. now rewrite filter_idem.
      * unfold split_on_column_value, df_column in H. rewrite Hcol in H.
        cbn [bind] in H. rewrite Hid in H. discriminate.
    + unfold split_on_column_value, df_column in H. rewrite Hcol in H.
      discriminate.
  - intros d H. apply multi_column_outcome in H as [Hall ->].
    rewrite (multi_column_success env _ _ _ Hall). now rewrite filter_idem.
  - intros d H. unfold split_on_date_parts in *.
    destruct (_validate_date_parts date_parts); [|discriminate].
    cbn [bind] in *.
    destruct (_convert_date_parts date_parts) as [parts|]; [|discriminate].
    cbn [bind] in *.
    destruct (getitem batch_identifiers column_name) as [v|]; [|discriminate].
    cbn [bind] in *.
    destruct (_convert_datetime_batch_identifiers_to_date_parts_dict v parts)
      as [date_parts_dict|]; [|discriminate].
    cbn [bind] in *.
    exact (date_part_filters_settled env column_name date_parts_dict df d H).
  - intros d i t H. unfold split_on_divided_integer in *.
    destruct (getitem batch_identifiers column_name) as [v|]; [|discriminate].
    cbn [bind] in *. exact (apply_filter_settled env _ column_name df d i t H).
  - intros d i t H. unfold split_on_mod_integer in *.
    destruct (getitem batch_identifiers column_name) as [v|]; [|discriminate].
    cbn [bind] in *. exact (apply_filter_settled env _ column_name df d i t H).
  - intros d i t H. unfold split_on_hashed_column in *.
    destruct (hashlib hash_function_name) as [h|]; [|discriminate].
    cbn [bind] in *. exact (apply_filter_settled env _ column_name df d i t H).
Qed.

(** Without rows the second split finds no value to take the type of the
    mask from. *)
Example empty_result_is_not_split_again :
  split_on_mod_integer (env := sample_env) (ints_table [5; 15; 25]) "n" 3
    [("n", PInt 7)]
  = Ok (ints_table [])
  /\ split_on_mod_integer (env := sample_env) (ints_table []) "n" 3
       [("n", PInt 7)]
     = Raise TypeError.
Proof. split; reflexivity. Qed.

(** ** True division on small integers *)

Lemma round_half_even_cases (a b : Z) :
  round_half_even a b = a / b
  \/ (round_half_even a b = a / b + 1 /\ b <= 2 * (a mod b)).
Proof.
  unfold round_half_even.
  destruct (Z.ltb_spec (2 * (a mod b)) b); [now left|].
  destruct (b <? 2 * (a mod b)); [now right|].
  destruct (Z.even (a / b)); [now left | now right].
Qed.

(** Rounding to a grid finer than the divisor never reaches the next
    integer. *)
Lemma round_then_truncate (A B s : Z) :
  0 <= A -> 0 < B -> 0 <= s -> B < 2 ^ (s + 1) ->
  round_half_even (A * 2 ^ s) B / 2 ^ s = A / B.
Proof.
  intros HA HB Hs Hfine.
  assert (Hp : 0 < 2 ^ s) by (apply Z.pow_pos_nonneg; lia).
  assert (Hp1 : 2 ^ (s + 1) = 2 * 2 ^ s)
    by (rewrite Z.pow_add_r by lia; lia).
  set (q := A / B).
  assert (Hq : B * q <= A < B * (q + 1)).
  { pose proof (Z.div_mod A B ltac:(lia)) as E.
    pose proof (Z.mod_pos_bound A B HB) as R. subst q. lia. }
  set (f := A * 2 ^ s / B). set (r := (A * 2 ^ s) mod B).
  assert (Hf : A * 2 ^ s = B * f + r /\ 0 <= r < B).
  { split; [apply Z.div_mod; lia | apply Z.mod_pos_bound; lia]. }
  assert (Hfq : q * 2 ^ s <= f < (q + 1) * 2 ^ s) by nia.
  destruct (round_half_even_cases (A * 2 ^ s) B) as [->|[-> Hup]].
  - fold f. symmetry. apply Z.div_unique with (r := f - q * 2 ^ s). lia. lia.
  - fold f. fold r in Hup.
    assert (f + 1 < (q + 1) * 2 ^ s).
    { destruct (Z.eq_dec (f + 1) ((q + 1) * 2 ^ s)) as [E|]; [|lia].
      exfalso. nia. }
    symmetry. apply Z.div_unique with (r := f + 1 - q * 2 ^ s). lia. lia.
Qed.

Lemma round_half_even_ge (a b : Z) : a / b <= round_half_even a b.
Proof.
  unfold round_half_even.
  destruct (2 * (a mod b) <? b); [lia|].
  destruct (b <? 2 * (a mod b)); [lia|].
  destruct (Z.even (a / b)); lia.
Qed.

(** On a grid far finer than the quotient, a quotient below one half
    rounds to less than one. *)
Lemma round_tiny (A B P : Z) :
  0 <= A < 2 ^ 53 -> 2 ^ 53 < P -> 2 * P <= B ->
  round_half_even (A * P) B / P = A / B.
Proof.
  intros HA HP HB.
  assert (HK : 2 ^ 53 = 2 * 2 ^ 52)
    by (change 53 with (Z.succ 52); apply Z.pow_succ_r; lia).
  assert (HK0 : 0 < 2 ^ 52) by (apply Z.pow_pos_nonneg; lia).
  set (K := 2 ^ 52) in *. rewrite HK in *.
  rewrite (Z.div_small A B) by lia.
  pose proof (round_half_even_le (A * P) B) as Hle.
  pose proof (round_half_even_ge (A * P) B) as Hge.
  assert (Hf0 : 0 <= A * P / B) by (apply Z.div_pos; nia).
  assert (HfK : A * P / B < K) by (apply Z.div_lt_upper_bound; nia).
  apply Z.div_small. lia.
Qed.

Lemma exponent_lower_bound (A B : Z) :
  1 <= A -> 1 <= B ->
  let e0 := Z.log2 A - Z.log2 B in
  let e := if B * pow2 e0 <=? A * pow2 (- e0) then e0 else e0 - 1 in
  B * pow2 e <= A * pow2 (- e).
Proof.
  intros HA HB e0 e. subst e.
  destruct (Z.leb_spec (B * pow2 e0) (A * pow2 (- e0))) as [H|_];
    [exact H|].
  destruct (Z.log2_spec A ltac:(lia)) as [HlA _].
  destruct (Z.log2_spec B ltac:(lia)) as [_ HuB].
  assert (H0A := Z.log2_nonneg A). assert (H0B := Z.log2_nonneg B).
  subst e0. set (lA := Z.log2 A) in *. set (lB := Z.log2 B) in *.
  unfold pow2. destruct (Z.le_gt_cases 0 (lA - lB - 1)) as [Hpos|Hneg].
  - replace (Z.max 0 (lA - lB - 1)) with (lA - lB - 1) by lia.
    replace (Z.max 0 (- (lA - lB - 1))) with 0 by lia.
    assert (E : 2 ^ Z.succ lB * 2 ^ (lA - lB - 1) = 2 ^ lA).
    { rewrite <- Z.pow_add_r by lia. f_equal; lia. }
    assert (0 < 2 ^ (lA - lB - 1)) by (apply Z.pow_pos_nonneg; lia).
    nia.
  - replace (Z.max 0 (lA - lB - 1)) with 0 by lia.
    replace (Z.max 0 (- (lA - lB - 1))) with (lB - lA + 1) by lia.
    assert (E : 2 ^ lA * 2 ^ (lB - lA + 1) = 2 ^ Z.succ lB).
    { rewrite <- Z.pow_add_r by lia. f_equal; lia. }
    assert (0 < 2 ^ (lB - lA + 1)) by (apply Z.pow_pos_nonneg; lia).
    nia.
Qed.

(** On numerators below 2^53 in magnitude, [int(a / b)] is the quotient
    truncated toward zero. *)
Lemma int_truediv_truncates (a b : Z) :
  Z.abs a < 2 ^ 53 -> b <> 0 ->
  exists f, int_truediv a b = Ok f /\ py_int f = Z.quot a b.
Proof.
  intros Ha Hb. unfold int_truediv.
  destruct (Z.eqb_spec b 0) as [|_]; [contradiction|].
  destruct (Z.eqb_spec a 0) as [->|Ha0].
  - eexists. split; [reflexivity|]. rewrite Z.quot_0_l by exact Hb.
    unfold py_int. cbn [f_neg f_mant f_exp]. now destruct (b <? 0).
  - pose proof (exponent_lower_bound (Z.abs a) (Z.abs b)
                  ltac:(lia) ltac:(lia)) as Hlow.
    cbv zeta in Hlow.
    set (A := Z.abs a) in *. set (B := Z.abs b) in *.
    set (e := if B * pow2 (Z.log2 A - Z.log2 B)
                 <=? A * pow2 (- (Z.log2 A - Z.log2 B))
              then Z.log2 A - Z.log2 B else Z.log2 A - Z.log2 B - 1) in *.
    set (sh := Z.max (e - 52) (-1074)).
    assert (HA : 1 <= A < 2 ^ 53) by (subst A; lia).
    assert (HB : 1 <= B) by (subst B; lia).
    assert (HlA : Z.log2 A < 53) by (apply Z.log2_lt_pow2; lia).
    assert (HlB : 0 <= Z.log2 B) by apply Z.log2_nonneg.
    assert (He : e <= 52) by (subst e; destruct (_ <=? _); lia).
    assert (Hsh : -1074 <= sh <= 0) by (subst sh; lia).
    assert (Hp1 : pow2 sh = 1).
    { unfold pow2. now replace (Z.max 0 sh) with 0 by lia. }
    assert (Hp2 : pow2 (- sh) = 2 ^ (- sh)).
    { unfold pow2. now replace (Z.max 0 (- sh)) with (- sh) by lia. }
    rewrite Hp1, Hp2, !Z.mul_1_r.
    set (m := round_half_even (A * 2 ^ (- sh)) B).
    assert (Hm : m / 2 ^ (- sh) = A / B).
    { destruct (Z.lt_ge_cases B (2 ^ (- sh + 1))) as [Hfine|Hhuge].
      - apply round_then_truncate; lia.
      - assert (Hclamp : sh = -1074).
        { destruct (Z.eq_dec sh (-1074)) as [|Hn]; [assumption|].
          exfalso. assert (Hs : - sh + 1 = 53 - e) by (subst sh; lia).
          rewrite Hs in Hhuge. unfold pow2 in Hlow.
          destruct (Z.le_gt_cases 0 e) as [He0|He0].
          - replace (Z.max 0 e) with e in Hlow by lia.
            replace (Z.max 0 (- e)) with 0 in Hlow by lia.
            assert (E : 2 ^ (53 - e) * 2 ^ e = 2 ^ 53).
            { rewrite <- Z.pow_add_r by lia. f_equal; lia. }
            assert (0 < 2 ^ e) by (apply Z.pow_pos_nonneg; lia).
            nia.
          - replace (Z.max 0 e) with 0 in Hlow by lia.
            replace (Z.max 0 (- e)) with (- e) in Hlow by lia.
            assert (E : 2 ^ 53 * 2 ^ (- e) = 2 ^ (53 - e)).
            { rewrite <- Z.pow_add_r by lia. f_equal; lia. }
            assert (0 < 2 ^ (- e)) by (apply Z.pow_pos_nonneg; lia).
            nia. }
        assert (Hs1 : 2 ^ (- sh + 1) = 2 * 2 ^ (- sh))
          by (rewrite Z.pow_add_r by lia; lia).
        apply round_tiny; [lia| |lia].
        rewrite Hclamp. apply Z.pow_lt_mono_r; lia. }
    assert (Hover : (0 <=? sh) && (2 ^ 1024 <=? m) = false).
    { destruct (Z.leb_spec 0 sh) as [H0|]; [|reflexivity].
      cbn [andb]. apply Z.leb_gt.
      assert (sh = 0) by lia. subst sh.
      assert (Hm' : m = A / B).
      { rewrite <- Hm. replace (- Z.max (e - 52) (-1074)) with 0 by lia.
        now rewrite Z.pow_0_r, Z.div_1_r. }
      assert (A / B <= A) by (apply Z.div_le_upper_bound; nia).
      assert (2 ^ 53 < 2 ^ 1024) by (apply Z.pow_lt_mono_r; lia).
      lia. }
    rewrite Hover. eexists. split; [reflexivity|].
    unfold py_int. cbn [f_neg f_mant f_exp].
    assert (Ht : (if 0 <=? sh then m * 2 ^ sh else m / 2 ^ (- sh)) = A / B).
    { destruct (Z.leb_spec 0 sh) as [H0|]; [|exact Hm].
      assert (E0 : sh = 0) by lia. rewrite <- Hm, E0.
      change (- 0) with 0. now rewrite Z.pow_0_r, Z.div_1_r, Z.mul_1_r. }
    rewrite Ht, (Z.quot_div a b Hb). fold A B.
    assert (0 <= A / B) by (apply Z.div_pos; lia).
    destruct (Z.ltb_spec a 0), (Z.ltb_spec b 0); cbn [xorb];
      rewrite ?(Z.sgn_neg a), ?(Z.sgn_pos a), ?(Z.sgn_neg b),
              ?(Z.sgn_pos b) by lia; lia.
Qed.

(** ** Integer columns *)

(** X8. On a well-formed table with a 64-bit integer split column that
    has a value in some row, a modulus other than zero and an identifier
    for the column, [split_on_mod_integer] returns the rows whose value
    has the identifier as its remainder; nulls are dropped. The remainder
    has the sign of the modulus, so an integer identifier outside the
    remainders of that modulus gives the table's columns with no rows and
    no error. *)
Theorem mod_split_keeps_rows_with_that_remainder
    (env : PyEnv) (df : DataFrame) (column_name : string) (mod_ : Z)
    (batch_identifiers : batch_identifiers_t) (i : nat) (v : pyvalue) :
  well_formed df ->
  find_column (schema df) column_name 0 = Some (i, Int64) ->
  some_value df i = true ->
  mod_ <> 0 ->
  getitem batch_identifiers column_name = Ok v ->
  split_on_mod_integer df column_name mod_ batch_identifiers
  = Ok (mkDataFrame (schema df)
          (filter (fun r => remainder_matches mod_ v (nth i r None))
                  (rows df)))
  /\ (forall k, v = PInt k -> ~ 0 <= k < mod_ -> ~ mod_ < k <= 0 ->
      split_on_mod_integer df column_name mod_ batch_identifiers
      = Ok (mkDataFrame (schema df) [])).
Proof.
  intros Hwf Hcol Hsome Hm Hid.
  assert (Hrows : split_on_mod_integer df column_name mod_ batch_identifiers
                  = Ok (mkDataFrame (schema df)
                          (filter (fun r => remainder_matches mod_ v
                                              (nth i r None)) (rows df)))).
  { unfold split_on_mod_integer. rewrite Hid. cbn [bind].
    apply (apply_to_integer_column env _
             (fun z => py_eq (SInt (z mod mod_)) v) df column_name i Hwf Hcol
             Hsome).
    intros r z _ _. cbn [py_mod].
    destruct (Z.eqb_spec mod_ 0); [contradiction | reflexivity]. }
  split; [exact Hrows|]. intros k -> Hpos Hneg. rewrite Hrows. do 2 f_equal.
  apply filter_none. intros r _. unfold remainder_matches.
  destruct (nth i r None) as [[z|?|?|?]|]; try reflexivity. cbn [py_eq].
  apply Z.eqb_neq. intros <-.
  destruct (Z.lt_trichotomy mod_ 0) as [Hlt|[E|Hgt]]; [|contradiction|].
  - apply Hneg. now apply Z.mod_neg_bound.
  - apply Hpos. now apply Z.mod_pos_bound.
Qed.

Lemma mod_split_witness :
  split_on_mod_integer (env := sample_env) (ints_table [5; -15; 26; -3]) "n"
    (-10) [("n", PInt (-5))]
  = Ok (ints_table [5; -15])
  /\ split_on_mod_integer (env := sample_env) (ints_table [5; -15; 26; -3])
       "n" (-10) [("n", PInt 5)]
     = Ok (ints_table []).
Proof.
  destruct (mod_split_keeps_rows_with_that_remainder sample_env
              (ints_table [5; -15; 26; -3]) "n" (-10) [("n", PInt (-5))]
              0%nat (PInt (-5))
              (well_formedb_sound (ints_table [5; -15; 26; -3]) eq_refl)
              eq_refl eq_refl ltac:(discriminate) eq_refl) as [Hrows _].
  destruct (mod_split_keeps_rows_with_that_remainder sample_env
              (ints_table [5; -15; 26; -3]) "n" (-10) [("n", PInt 5)]
              0%nat (PInt 5)
              (well_formedb_sound (ints_table [5; -15; 26; -3]) eq_refl)
              eq_refl eq_refl ltac:(discriminate) eq_refl) as [_ Hnone].
  split; [exact Hrows|]. apply (Hnone 5 eq_refl); lia.
Defined.

(** X9. On a well-formed table with an integer split column that has a
    value in some row and whose values are below 2^53 in magnitude, a
    divisor other than zero and an identifier for the column,
    [split_on_divided_integer] returns the rows whose value divided by
    the divisor and truncated toward zero (not floored) equals the
    identifier; nulls are dropped. *)
Theorem divided_split_truncates_toward_zero
    (env : PyEnv) (df : DataFrame) (column_name : string) (divisor : Z)
    (batch_identifiers : batch_identifiers_t) (i : nat) (v : pyvalue) :
  well_formed df ->
  find_column (schema df) column_name 0 = Some (i, Int64) ->
  some_value df i = true ->
  divisor <> 0 ->
  getitem batch_identifiers column_name = Ok v ->
  (forall r z, In r (rows df) -> nth i r None = Some (SInt z) ->
     Z.abs z < 2 ^ 53) ->
  split_on_divided_integer df column_name divisor batch_identifiers
  = Ok (mkDataFrame (schema df)
          (filter (fun r => truncated_quotient_matches divisor v
                              (nth i r None)) (rows df))).
Proof.
  intros Hwf Hcol Hsome Hd Hid Hsmall.
  unfold split_on_divided_integer. rewrite Hid. cbn [bind].
  apply (apply_to_integer_column env _
           (fun z => py_eq (SInt (Z.quot z divisor)) v) df column_name i
           Hwf Hcol Hsome).
  intros r z Hr Hz. cbn [py_truediv].
  destruct (int_truediv_truncates z divisor (Hsmall r z Hr Hz) Hd)
    as [f [Ef Ei]].
  rewrite Ef. cbn [bind]. now rewrite Ei.
Qed.

Lemma divided_split_witness :
  split_on_divided_integer (env := sample_env) (ints_table [-15; 15; -9; 9])
    "n" 10 [("n", PInt (-1))]
  = Ok (ints_table [-15])
  /\ split_on_divided_integer (env := sample_env)
       (ints_table [-15; 15; -9; 9]) "n" 10 [("n", PInt 0)]
     = Ok (ints_table [-9; 9]).
Proof.
  assert (Hsmall : forall r z,
             In r (rows (ints_table [-15; 15; -9; 9])) ->
             nth 0 r None = Some (SInt z) -> Z.abs z < 2 ^ 53).
  { intros r z Hr Hz. simpl in Hr.
    repeat (destruct Hr as [<-|Hr];
            [inversion Hz; subst; reflexivity|]).
    destruct Hr. }
  split.
  - exact (divided_split_truncates_toward_zero sample_env
             (ints_table [-15; 15; -9; 9])
             "n" 10 [("n", PInt (-1))] 0%nat (PInt (-1))
             (well_formedb_sound (ints_table [-15; 15; -9; 9]) eq_refl)
             eq_refl eq_refl ltac:(discriminate) eq_refl Hsmall).
  - exact (divided_split_truncates_toward_zero sample_env
             (ints_table [-15; 15; -9; 9])
             "n" 10 [("n", PInt 0)] 0%nat (PInt 0)
             (well_formedb_sound (ints_table [-15; 15; -9; 9]) eq_refl)
             eq_refl eq_refl ltac:(discriminate) eq_refl Hsmall).
Defined.

(** Beyond 2^53 the double rounds: the largest 64-bit value divided by
    one is no longer itself. *)
Example large_values_round :
  split_on_divided_integer (env := sample_env)
    (ints_table [9223372036854775807]) "n" 1
    [("n", PInt 9223372036854775808)]
  = Ok (ints_table [9223372036854775807]).
Proof. reflexivity. Qed.

(** ** Hashed columns, further *)

(** X10. [batch_identifiers["hash_value"]] is read inside the row-level
    lambda. With a known hash function that digests every value, an
    existing column that is not temporal and no [hash_value] among the
    identifiers, [split_on_hashed_column] raises [KeyError] when some row
    has a value to hash; when the table has no rows, or nulls only in the
    column, the lambda is never called, and on a 64-bit integer column
    the call raises the [TypeError] of a mask that is not boolean. *)
Theorem hash_value_is_looked_up_per_row
    (env : PyEnv) (df : DataFrame) (column_name : string) (hash_digits : Z)
    (batch_identifiers : batch_identifiers_t) (hash_function_name : string)
    (hash_method : string -> result string) (i : nat) (t : dtype) :
  hashlib hash_function_name = Some hash_method ->
  (forall b, exists hexdigest, hash_method b = Ok hexdigest) ->
  find_column (schema df) column_name 0 = Some (i, t) ->
  temporal t = false ->
  dict_get String.eqb batch_identifiers "hash_value" = None ->
  (some_value df i = true ->
   split_on_hashed_column df column_name hash_digits batch_identifiers
     hash_function_name
   = Raise (KeyError "hash_value"))
  /\ (some_value df i = false -> t = Int64 ->
      split_on_hashed_column df column_name hash_digits batch_identifiers
        hash_function_name
      = Raise TypeError).
Proof.
  intros Hh Htotal Hcol Ht Hkey.
  assert (H : split_on_hashed_column df column_name hash_digits
                batch_identifiers hash_function_name
              = if some_value df i then Raise (KeyError "hash_value")
                else df_getitem df (Untyped t)).
  { unfold split_on_hashed_column. rewrite Hh. cbn [bind].
    apply (apply_filter_fault env _ (KeyError "hash_value") df column_name i
             t Hcol Ht).
    intros r x _ _.
    destruct (Htotal (py_str (Some x))) as [hexdigest ->]. cbn [bind].
    unfold getitem. now rewrite Hkey. }
  rewrite H. split.
  - now intros ->.
  - now intros -> ->.
Qed.

Lemma hash_value_lookup_witness :
  split_on_hashed_column (env := sample_env) (ints_table [5; 15]) "n" 2
    [("n", PInt 5)] "sum4"
  = Raise (KeyError "hash_value")
  /\ split_on_hashed_column (env := sample_env) (ints_table []) "n" 2
       [("n", PInt 5)] "sum4"
     = Raise TypeError.
Proof.
  split.
  - exact (proj1 (hash_value_is_looked_up_per_row sample_env
                    (ints_table [5; 15])
                    "n" 2 [("n", PInt 5)] "sum4"
                    (fun b => Ok (zero_padded 4 (byte_sum b))) 0%nat Int64
                    eq_refl (fun b => ex_intro _ _ eq_refl) eq_refl eq_refl
                    eq_refl) eq_refl).
  - exact (proj2 (hash_value_is_looked_up_per_row sample_env (ints_table [])
                    "n" 2 [("n", PInt 5)] "sum4"
                    (fun b => Ok (zero_padded 4 (byte_sum b))) 0%nat Int64
                    eq_refl (fun b => ex_intro _ _ eq_refl) eq_refl eq_refl
                    eq_refl) eq_refl eq_refl).
Defined.

Lemma slice_from_whole (n : Z) (s : string) :
  Z.of_nat (String.length s) <= n -> slice_from (-1 * n) s = s.
Proof.
  intros Hn. unfold slice_from.
  destruct (Z.ltb_spec (-1 * n) 0).
  - now replace (Z.max (Z.of_nat (String.length s) + -1 * n) 0) with 0 by lia.
  - now replace (Z.min (-1 * n) (Z.of_nat (String.length s))) with 0 by lia.
Qed.
(** X11. A [hash_digits] that is at least as long as every digest the
    hash function produces compares whole digests: the split is the one
    for [hash_digits = 0]. *)
Theorem long_hash_digits_compare_whole_digest
    (env : PyEnv) (df : DataFrame) (column_name : string) (hash_digits : Z)
    (batch_identifiers : batch_identifiers_t) (hash_function_name : string) :
  (forall hash_method b hexdigest,
      hashlib hash_function_name = Some hash_method ->
      hash_method b = Ok hexdigest ->
      Z.of_nat (String.length hexdigest) <= hash_digits) ->
  split_on_hashed_column df column_name hash_digits batch_identifiers
    hash_function_name
  = split_on_hashed_column df column_name 0 batch_identifiers
      hash_function_name.
Proof.
  intros Hlong. unfold split_on_hashed_column.
  destruct (hashlib hash_function_name) as [h|]; [|reflexivity].
  cbn [bind]. destruct (df_column df column_name) as [column|e];
    [|reflexivity].
  cbn [bind]. f_equal. apply series_apply_ext. intros x.
  destruct (h (py_str x)) as [hexdigest|e] eqn:E; [|reflexivity].
  cbn [bind]. cbv zeta.
  rewrite (slice_from_whole hash_digits hexdigest (Hlong h _ _ eq_refl E)).
  change (-1 * 0) with 0. now rewrite slice_from_0.
Qed.

Lemma digits_length (width : nat) (n : Z) (acc : string) :
  String.length (digits width n acc) = (width + String.length acc)%nat.
Proof.
  revert n acc. induction width as [|w IH]; intros n acc; simpl;
    [reflexivity|].
  rewrite IH. simpl. lia.
Qed.

Lemma long_hash_digits_witness :
  split_on_hashed_column (env := sample_env) (ints_table [5; 15; 25]) "n" 7
    [("hash_value", PStr "0053")] "sum4"
  = split_on_hashed_column (env := sample_env) (ints_table [5; 15; 25]) "n" 0
      [("hash_value", PStr "0053")] "sum4".
Proof.
  apply (long_hash_digits_compare_whole_digest sample_env
           (ints_table [5; 15; 25]) "n" 7 [("hash_value", PStr "0053")]
           "sum4").
  intros h b hexdigest Hh Hd. inversion Hh; subst h. inversion Hd.
  unfold zero_padded. rewrite digits_length. simpl. lia.
Defined.
(** ** Missing identifiers and missing columns *)

(** X12. The methods disagree on what they look up first. Without an
    identifier for the column, [split_on_divided_integer] and
    [split_on_mod_integer] raise [KeyError] for every table and every
    divisor or modulus, zero included; [split_on_column_value] reads the
    column first, so a table without the column raises
    [ColumnNotFoundError] whatever the identifiers are, and only a table
    that has the column raises [KeyError]. *)
Theorem divided_and_mod_read_the_identifier_first
    (env : PyEnv) (df : DataFrame) (column_name : string)
    (batch_identifiers : batch_identifiers_t) :
  (dict_get String.eqb batch_identifiers column_name = None ->
   (forall divisor,
       split_on_divided_integer df column_name divisor batch_identifiers
       = Raise (KeyError column_name))
   /\ (forall mod_,
         split_on_mod_integer df column_name mod_ batch_identifiers
         = Raise (KeyError column_name))
   /\ (find_column (schema df) column_name 0 <> None ->
       split_on_column_value df column_name batch_identifiers
       = Raise (KeyError column_name)))
  /\ (find_column (schema df) column_name 0 = None ->
      split_on_column_value df column_name batch_identifiers
      = Raise (ColumnNotFoundError column_name)).
Proof.
  split.
  - intros Hkey.
    assert (Hid : getitem batch_identifiers column_name
                  = Raise (KeyError column_name))
      by (unfold getitem; now rewrite Hkey).
    conjuncts.
    + intros. unfold split_on_divided_integer. now rewrite Hid.
    + intros. unfold split_on_mod_integer. now rewrite Hid.
    + intros Hcol. unfold split_on_column_value, df_column.
      destruct (find_column (schema df) column_name 0) as [[i t]|];
        [|contradiction].
      cbn [bind]. now rewrite Hid.
  - intros Hcol. unfold split_on_column_value, df_column. now rewrite Hcol.
Qed.

Lemma identifier_first_witness :
  split_on_divided_integer (env := sample_env) (ints_table [5; 15]) "m" 0
    [("n", PInt 1)]
  = Raise (KeyError "m")
  /\ split_on_column_value (env := sample_env) (ints_table [5; 15]) "m"
       [("n", PInt 1)]
     = Raise (ColumnNotFoundError "m").
Proof.
  destruct (divided_and_mod_read_the_identifier_first sample_env
              (ints_table [5; 15]) "m" [("n", PInt 1)]) as [Hkey Hcol].
  split.
  - exact (proj1 (Hkey eq_refl) 0).
  - exact (Hcol eq_refl).
Defined.


Lemma splits_are_idempotent_witness :
  split_on_mod_integer (env := sample_env) (ints_table [15; -3]) "n" 3
    [("n", PInt 0)]
  = Ok (ints_table [15; -3]).
Proof.
  destruct (splits_are_idempotent sample_env
              (SpecDataSplitter (env := sample_env))
              (ints_table [5; 15; 25; -3]) "n" [] [("n", PInt 0)] []
              1 3 0 "sum4")
    as (_ & _ & _ & _ & Hmod & _).
  apply (Hmod (ints_table [15; -3]) 0%nat Int64 eq_refl eq_refl);
    [discriminate|].
  intros r [<-|[<-|[]]]; reflexivity.
Defined.

(** * The Snowflake datasource *)

(** ** Splitting a path *)

Lemma split_on_cons (sep : ascii) (s : string) :
  exists segment segments, split_on sep s = segment :: segments.
Proof.
  destruct s as [|c s]; simpl; [eauto|].
  destruct (Ascii.eqb c sep); [eauto|].
  destruct (split_on sep s); eauto.
Qed.

Lemma split_on_free (sep : ascii) (p : string) :
  free_of sep p = true -> split_on sep p = [p].
Proof.
  induction p as [|c p IH]; simpl; intros H; [reflexivity|].
  apply andb_prop in H as [Hc Hp]. apply negb_true_iff in Hc.
  now rewrite Hc, (IH Hp).
Qed.

Lemma split_on_app (sep : ascii) (p s : string) :
  free_of sep p = true ->
  split_on sep (p ++ String sep s) = p :: split_on sep s.
Proof.
  induction p as [|c p IH]; simpl; intros H.
  - now rewrite Ascii.eqb_refl.
  - apply andb_prop in H as [Hc Hp]. apply negb_true_iff in Hc.
    now rewrite Hc, (IH Hp).
Qed.

Lemma join_split (sep : ascii) (s : string) :
  join_with sep (split_on sep s) = s.
Proof.
  induction s as [|c s IH]; simpl; [reflexivity|].
  destruct (Ascii.eqb_spec c sep) as [->|_].
  - destruct (split_on_cons sep s) as [seg [segs E]]. rewrite E in *.
    change (join_with sep (EmptyString :: seg :: segs))
      with (String sep (join_with sep (seg :: segs))).
    now rewrite IH.
  - destruct (split_on sep s) as [|seg segs];
      [simpl in *; now rewrite <- IH|].
    destruct segs as [|seg' segs]; simpl in *; now rewrite <- IH.
Qed.

Lemma split_on_segments_free (sep : ascii) (s : string) :
  Forall (fun segment => free_of sep segment = true) (split_on sep s).
Proof.
  induction s as [|c s IH]; simpl; [now repeat constructor|].
  destruct (Ascii.eqb c sep) eqn:E; [now constructor|].
  destruct (split_on sep s) as [|seg segs]; inversion IH; subst;
    constructor; simpl; try rewrite E; auto.
Qed.

Lemma split_on_length (sep : ascii) (s : string) :
  List.length (split_on sep s) = S (count_of sep s).
Proof.
  induction s as [|c s IH]; simpl; [reflexivity|].
  destruct (Ascii.eqb c sep); simpl; [now rewrite IH|].
  destruct (split_on sep s) as [|seg segs]; simpl in *; [discriminate|].
  exact IH.
Qed.

Lemma String_eqb_empty (s : string) :
  String.eqb s EmptyString = false <-> s <> EmptyString.
Proof. now rewrite String.eqb_neq. Qed.

(** X13. [_get_database_and_schema_from_path] returns a database and a
    schema exactly for the paths of the form
    [prefix/database/schema], optionally followed by [/] and anything,
    where the three segments hold no slash and the database and the
    schema are not empty; whatever stands before the first slash is
    ignored. *)
Theorem path_gives_database_and_schema_iff
    (path db sch : string) :
  _get_database_and_schema_from_path (Some path)
  = Returns (mkDatabaseAndSchema db sch)
  <-> db <> EmptyString /\ sch <> EmptyString
      /\ free_of slash db = true /\ free_of slash sch = true
      /\ exists prefix tail,
           free_of slash prefix = true
           /\ path = (prefix ++ String slash (db ++ String slash (sch ++ tail)))
                       %string
           /\ (tail = EmptyString \/ exists rest, tail = String slash rest).
Proof.
  unfold _get_database_and_schema_from_path. split.
  - intros H. pose proof (join_split slash path) as Hjoin.
    pose proof (split_on_segments_free slash path) as Hfree.
    destruct (split_on slash path) as [|prefix [|d [|s rest]]];
      try discriminate.
    destruct (String.eqb d EmptyString) eqn:Ed; [discriminate|].
    destruct (String.eqb s EmptyString) eqn:Es; [discriminate|].
    inversion H; subst d s.
    pose proof (Forall_inv Hfree) as Hp.
    pose proof (Forall_inv (Forall_inv_tail Hfree)) as Hd.
    pose proof (Forall_inv (Forall_inv_tail (Forall_inv_tail Hfree))) as Hs.
    cbv beta in Hp, Hd, Hs.
    apply String_eqb_empty in Ed, Es. repeat split; try assumption.
    exists prefix.
    destruct rest as [|seg rest].
    + exists EmptyString. repeat split; [assumption| |now left].
      rewrite <- Hjoin. simpl. f_equal. f_equal. f_equal.
      clear. induction sch; simpl; congruence.
    + exists (String slash (join_with slash (seg :: rest))).
      repeat split; [assumption| |right; eauto].
      rewrite <- Hjoin. reflexivity.
  - intros (Hd & Hs & Hfd & Hfs & prefix & tail & Hfp & -> & Htail).
    rewrite (split_on_app slash prefix _ Hfp), (split_on_app slash db _ Hfd).
    assert (Hrest : exists rest, split_on slash (sch ++ tail) = sch :: rest).
    { destruct Htail as [->|[rest ->]].
      - exists []. replace (sch ++ EmptyString)%string with sch
          by (clear; induction sch; simpl; congruence).
        now apply split_on_free.
      - eexists. now apply split_on_app. }
    destruct Hrest as [rest ->].
    apply String_eqb_empty in Hd, Hs. now rewrite Hd, Hs.
Qed.

Example paths_accepted_and_rejected :
  _get_database_and_schema_from_path (Some "/my_db/my_schema")
  = Returns (mkDatabaseAndSchema "my_db" "my_schema")
  /\ _get_database_and_schema_from_path (Some "ignored/my_db/my_schema/more")
     = Returns (mkDatabaseAndSchema "my_db" "my_schema")
  /\ _get_database_and_schema_from_path (Some "/my_db")
     = Fails (UrlPathError None)
  /\ _get_database_and_schema_from_path (Some "//my_schema")
     = Fails (UrlPathError (Some "missing database"))
  /\ _get_database_and_schema_from_path (Some "/my_db/")
     = Fails (UrlPathError (Some "missing schema")).
Proof. repeat split. Qed.

(** X14. The bare [UrlPathError], raised from the failed unpacking, is the
    outcome exactly for the paths with fewer than two slashes (and for a
    missing path); with two slashes or more the function either returns
    or names the empty part in the error's context. *)
Theorem bare_path_error_iff_fewer_than_two_slashes (path : string) :
  _get_database_and_schema_from_path None = Fails (UrlPathError None)
  /\ (_get_database_and_schema_from_path (Some path)
      = Fails (UrlPathError None)
      <-> (count_of slash path < 2)%nat).
Proof.
  split; [reflexivity|]. unfold _get_database_and_schema_from_path.
  pose proof (split_on_length slash path) as Hlen.
  destruct (split_on slash path) as [|prefix [|d [|s rest]]];
    simpl in Hlen.
  - split; [lia | reflexivity].
  - split; [lia | reflexivity].
  - split; [lia | reflexivity].
  - split; [|lia].
    destruct (String.eqb d EmptyString); [discriminate|].
    destruct (String.eqb s EmptyString); discriminate.
Qed.

(** X15. The two ways [SnowflakeDatasource] reads the database and the
    schema agree: whenever [_get_database_and_schema_from_path] accepts a
    path, the properties [database] and [schema_] of a datasource return
    its two parts, be the connection string a [SnowflakeDsn] or a
    [ConfigUri]. *)
Theorem datasource_database_and_schema_agree
    (path : option string) (r : database_and_schema) :
  _get_database_and_schema_from_path path = Returns r ->
  SnowflakeDatasource_database (Dsn path) = Returns (database r)
  /\ SnowflakeDatasource_database (Uri path) = Returns (database r)
  /\ SnowflakeDatasource_schema_ (Dsn path) = Returns (schema_ r)
  /\ SnowflakeDatasource_schema_ (Uri path) = Returns (schema_ r).
Proof.
  intros H. cbn [SnowflakeDatasource_database SnowflakeDatasource_schema_].
  rewrite H. unfold _get_database_and_schema_from_path in H.
  destruct path as [p|]; [|discriminate].
  unfold SnowflakeDsn_database, SnowflakeDsn_schema_.
  destruct p as [|c p]; [discriminate|]. cbn [String.eqb].
  destruct (split_on slash (String c p)) as [|prefix [|d [|s rest]]];
    try discriminate.
  destruct (String.eqb d EmptyString); [discriminate|].
  destruct (String.eqb s EmptyString); [discriminate|].
  inversion H. now repeat split.
Qed.

Lemma datasource_agree_witness :
  SnowflakeDatasource_database (Dsn (Some "/my_db/my_schema"))
  = Returns "my_db"
  /\ SnowflakeDatasource_database (Uri (Some "/my_db/my_schema"))
     = Returns "my_db"
  /\ SnowflakeDatasource_schema_ (Dsn (Some "/my_db/my_schema"))
     = Returns "my_schema"
  /\ SnowflakeDatasource_schema_ (Uri (Some "/my_db/my_schema"))
     = Returns "my_schema".
Proof.
  exact (datasource_database_and_schema_agree (Some "/my_db/my_schema")
           (mkDatabaseAndSchema "my_db" "my_schema") eq_refl).
Defined.

(** The properties of a [SnowflakeDsn] do not check for empty parts. *)
Example dsn_properties_accept_empty_parts :
  SnowflakeDatasource_database (Dsn (Some "//my_schema")) = Returns EmptyString
  /\ SnowflakeDatasource_database (Uri (Some "//my_schema"))
     = Fails (UrlPathError (Some "missing database")).
Proof. split; reflexivity. Qed.

(** ** Root-level connection fields *)

Lemma dict_get_skip {V} (kept rest : dict string V) (key : string) :
  ~ In key (map fst kept) ->
  dict_get String.eqb (kept ++ rest)%list key = dict_get String.eqb rest key.
Proof.
  induction kept as [|[k v] kept IH]; simpl; intros Hn; [reflexivity|].
  destruct (String.eqb_spec key k) as [->|_]; [tauto|]. apply IH. tauto.
Qed.

Lemma dict_without_skip {V} (kept rest : dict string V) (key : string) :
  ~ In key (map fst kept) ->
  dict_without (kept ++ rest)%list key = (kept ++ dict_without rest key)%list.
Proof.
  induction kept as [|[k v] kept IH]; simpl; intros Hn; [reflexivity|].
  destruct (String.eqb_spec key k) as [->|_]; [tauto|]. rewrite IH; tauto.
Qed.

Lemma dict_set_new {V} (d : dict string V) (key : string) (v : V) :
  ~ In key (map fst d) -> dict_set String.eqb d key v = (d ++ [(key, v)])%list.
Proof.
  induction d as [|[k w] d IH]; simpl; intros Hn; [reflexivity|].
  destruct (String.eqb_spec key k) as [->|_]; [tauto|]. rewrite IH; tauto.
Qed.

(** The loop of the validator, started anywhere in the dict, when no
    connection string stands in the way. *)
Lemma gather_connection_details (inherited : list string)
    (connection_string : pyvalue) :
  truthy connection_string = false ->
  forall rest kept details,
    NoDup (map fst details ++ map fst kept ++ map fst rest) ->
    for_each
      (fun '(values, connection_details) field_name =>
         if is_connection_detail_field inherited field_name
         then
           if truthy connection_string
           then Raise (ValueError both_provided_message)
           else
             v <- getitem values field_name ;;
             Ok (dict_without values field_name,
                 dict_set String.eqb connection_details field_name v)
         else Ok (values, connection_details))
      (map fst rest) ((kept ++ rest)%list, details)
    = Ok ((kept ++ other_entries inherited rest)%list,
          (details ++ connection_detail_entries inherited rest)%list).
Proof.
  intros Hfalsy. rewrite Hfalsy.
  induction rest as [|[k v] rest IH]; intros kept details Hnd.
  - simpl. now rewrite !app_nil_r.
  - cbn [map fst for_each]. unfold other_entries, connection_detail_entries.
    cbn [filter fst].
    assert (Hk : ~ In k (map fst details) /\ ~ In k (map fst kept)).
    { cbn [map fst] in Hnd. rewrite app_assoc in Hnd.
      apply NoDup_remove_2 in Hnd. rewrite !in_app_iff in Hnd. tauto. }
    destruct Hk as [Hkd Hkk].
    destruct (is_connection_detail_field inherited k) eqn:Ek; cbn [negb].
    + unfold getitem.
      rewrite (dict_get_skip kept _ k Hkk). cbn [dict_get].
      rewrite String.eqb_refl. cbn [bind].
      rewrite (dict_without_skip kept _ k Hkk). cbn [dict_without].
      rewrite String.eqb_refl, (dict_set_new details k v Hkd).
      rewrite IH.
      * now rewrite <- app_assoc.
      * rewrite map_app. cbn [map fst] in *. rewrite <- app_assoc.
        cbn [app]. apply (Permutation_NoDup (l := map fst details ++
                              map fst kept ++ k :: map fst rest));
          [|exact Hnd].
        apply Permutation_app_head. symmetry. apply Permutation_middle.
    + cbn [bind].
      replace (kept ++ (k, v) :: rest)%list
        with ((kept ++ [(k, v)]) ++ rest)%list
        by (now rewrite <- app_assoc).
      rewrite IH.
      * now rewrite <- app_assoc.
      * rewrite map_app. cbn [map fst] in *. rewrite <- !app_assoc.
        exact Hnd.
Qed.

Lemma keep_other_entries (inherited : list string) (connection_string : pyvalue)
    (fields : list string) (state : dict string pyvalue * dict string pyvalue) :
  (forall f, In f fields -> is_connection_detail_field inherited f = false) ->
  for_each
    (fun '(values, connection_details) field_name =>
       if is_connection_detail_field inherited field_name
       then
         if truthy connection_string
         then Raise (ValueError both_provided_message)
         else
           v <- getitem values field_name ;;
           Ok (dict_without values field_name,
               dict_set String.eqb connection_details field_name v)
       else Ok (values, connection_details))
    fields state
  = Ok state.
Proof.
  induction fields as [|f fields IH]; intros Hall; [reflexivity|].
  cbn [for_each]. destruct state as [values details].
  rewrite (Hall f (or_introl eq_refl)). cbn [bind]. apply IH.
  intros g Hg. apply Hall. now right.
Qed.

(** With a connection string in the way, the loop of the validator
    stops at the first connection detail field. *)
Lemma conflict_in_loop (inherited : list string) (connection_string : pyvalue)
    (field_name : string) (fields : list string) :
  truthy connection_string = true ->
  In field_name fields ->
  is_connection_detail_field inherited field_name = true ->
  forall state : dict string pyvalue * dict string pyvalue,
    for_each
      (fun '(values, connection_details) field_name =>
         if is_connection_detail_field inherited field_name
         then
           if truthy connection_string
           then Raise (ValueError both_provided_message)
           else
             v <- getitem values field_name ;;
             Ok (dict_without values field_name,
                 dict_set String.eqb connection_details field_name v)
         else Ok (values, connection_details))
      fields state
    = Raise (ValueError both_provided_message).
Proof.
  intros Htruthy Hin Hdetail. rewrite Htruthy.
  induction fields as [|f fields IH]; intros state; [destruct Hin|].
  cbn [for_each]. destruct state as [vals details].
  destruct (is_connection_detail_field inherited f) eqn:Ef; [reflexivity|].
  cbn [bind]. destruct Hin as [->|Hin]; [congruence|]. now apply IH.
Qed.

(** X16. When [connection_string] is given and truthy and some root-level
    key is a connection detail field ("schema" included), the validator
    raises the [ValueError] about providing both. *)
Theorem connection_string_and_details_conflict
    (inherited : list string) (values : dict string pyvalue)
    (field_name : string) :
  truthy (get values "connection_string") = true ->
  In field_name (map fst values) ->
  is_connection_detail_field inherited field_name = true ->
  _convert_root_connection_detail_fields inherited values
  = Raise (ValueError both_provided_message).
Proof.
  intros Htruthy Hin Hdetail. unfold _convert_root_connection_detail_fields.
  cbv zeta.
  now rewrite (conflict_in_loop inherited _ field_name (map fst values)
                 Htruthy Hin Hdetail).
Qed.

Lemma connection_conflict_witness :
  _convert_root_connection_detail_fields []
    [("name", PStr "sf"); ("connection_string", PStr "snowflake://u:p@a/d/s");
     ("schema", PStr "s")]
  = Raise (ValueError both_provided_message).
Proof.
  apply (connection_string_and_details_conflict []
           [("name", PStr "sf");
            ("connection_string", PStr "snowflake://u:p@a/d/s");
            ("schema", PStr "s")] "schema"); try reflexivity.
  simpl. tauto.
Defined.

(** X17. When [connection_string] is absent or falsy, the validator
    succeeds: the connection detail fields leave the root and, if there
    are any, are stored in their order as a dict under
    [connection_string]; every other entry stays where it was. *)
Theorem root_connection_details_are_gathered
    (inherited : list string) (values : dict string pyvalue) :
  NoDup (map fst values) ->
  truthy (get values "connection_string") = false ->
  _convert_root_connection_detail_fields inherited values
  = Ok match connection_detail_entries inherited values with
       | [] => other_entries inherited values
       | entry :: entries =>
           dict_set String.eqb (other_entries inherited values)
             "connection_string" (PDict (entry :: entries))
       end.
Proof.
  intros Hnd Hfalsy. unfold _convert_root_connection_detail_fields.
  cbv zeta.
  pose proof (gather_connection_details inherited _ Hfalsy values [] []
                Hnd) as Hloop.
  cbn [app] in Hloop. unfold dict in *. rewrite Hloop. cbn [bind].
  now destruct (connection_detail_entries inherited values).
Qed.

Lemma root_connection_details_witness :
  _convert_root_connection_detail_fields []
    [("account", PStr "a"); ("name", PStr "sf"); ("schema", PStr "s");
     ("kwargs", PNone)]
  = Ok [("name", PStr "sf"); ("kwargs", PNone);
        ("connection_string",
         PDict [("account", PStr "a"); ("schema", PStr "s")])].
Proof.
  apply (root_connection_details_are_gathered []
           [("account", PStr "a"); ("name", PStr "sf"); ("schema", PStr "s");
            ("kwargs", PNone)]); [|reflexivity].
  repeat constructor; simpl; intuition discriminate.
Defined.

Lemma dict_set_keys {V} (d : dict string V) (key : string) (v : V)
    (k : string) :
  In k (map fst (dict_set String.eqb d key v)) ->
  k = key \/ In k (map fst d).
Proof.
  induction d as [|[k' w] d IH]; simpl.
  - intros [<-|[]]. now left.
  - destruct (String.eqb_spec key k') as [->|_]; simpl.
    + intros [<-|H]; auto.
    + intros [<-|H]; auto. destruct (IH H); auto.
Qed.

(** X18. Values without a connection detail field at the root are
    returned as they are, whatever [connection_string] holds; so, unless
    the base model declares a field named [connection_string], the
    validator leaves its own result unchanged. *)
Theorem root_conversion_is_idempotent
    (inherited : list string) (values values' : dict string pyvalue) :
  ((forall f, In f (map fst values) ->
      is_connection_detail_field inherited f = false) ->
   _convert_root_connection_detail_fields inherited values = Ok values)
  /\ (is_connection_detail_field inherited "connection_string" = false ->
      NoDup (map fst values) ->
      _convert_root_connection_detail_fields inherited values = Ok values' ->
      _convert_root_connection_detail_fields inherited values' = Ok values').
Proof.
  assert (Hplain : forall vals,
             (forall f, In f (map fst vals) ->
                is_connection_detail_field inherited f = false) ->
             _convert_root_connection_detail_fields inherited vals = Ok vals).
  { intros vals Hall. unfold _convert_root_connection_detail_fields.
    cbv zeta. now rewrite keep_other_entries. }
  split; [apply Hplain|]. intros Hcs Hnd H. apply Hplain.
  assert (Hothers : forall f,
             In f (map fst (other_entries inherited values)) ->
             is_connection_detail_field inherited f = false).
  { intros f Hf. apply in_map_iff in Hf as [[k v] [<- Hin]].
    unfold other_entries in Hin. apply filter_In in Hin as [_ Hk].
    now apply negb_true_iff in Hk. }
  destruct (truthy (get values "connection_string")) eqn:Ht.
  - destruct (existsb (is_connection_detail_field inherited)
                      (map fst values)) eqn:Ex.
    + apply existsb_exists in Ex as [f [Hf Hd]].
      unfold _convert_root_connection_detail_fields in H. cbv zeta in H.
      rewrite (conflict_in_loop inherited _ f (map fst values) Ht Hf Hd) in H.
      discriminate.
    + assert (Hall : forall f, In f (map fst values) ->
                       is_connection_detail_field inherited f = false).
      { intros f Hf.
        destruct (is_connection_detail_field inherited f) eqn:E;
          [|reflexivity].
        rewrite <- Ex. symmetry. apply existsb_exists. eauto. }
      rewrite (Hplain values Hall) in H. inversion H; subst. exact Hall.
  - unfold _convert_root_connection_detail_fields in H. cbv zeta in H.
    pose proof (gather_connection_details inherited _ Ht values [] [] Hnd)
      as Hloop.
    cbn [app] in Hloop. unfold dict in *. rewrite Hloop in H. cbn [bind] in H.
    intros f Hf.
    destruct (connection_detail_entries inherited values);
      inversion H; subst values'.
    + now apply Hothers.
    + apply dict_set_keys in Hf as [->|Hf]; [exact Hcs | now apply Hothers].
Qed.

Lemma root_conversion_idempotent_witness :
  _convert_root_connection_detail_fields []
    [("name", PStr "sf");
     ("connection_string",
      PDict [("account", PStr "a"); ("schema", PStr "s")])]
  = Ok [("name", PStr "sf");
        ("connection_string",
         PDict [("account", PStr "a"); ("schema", PStr "s")])].
Proof.
  apply (proj2 (root_conversion_is_idempotent []
                  [("account", PStr "a"); ("name", PStr "sf");
                   ("schema", PStr "s")]
                  [("name", PStr "sf");
                   ("connection_string",
                    PDict [("account", PStr "a"); ("schema", PStr "s")])]));
    try reflexivity.
  repeat constructor; simpl; intuition discriminate.
Defined.

(** * Converted datetimes *)

Lemma traverse_fault {A B} (f : A -> result B) (l : list A) (a : A) (e : exn) :
  In a l -> f a = Raise e -> exists e', traverse f l = Raise e'.
Proof.
  induction l as [|b l IH]; intros Hin Ha; [destruct Hin|].
  cbn [traverse]. destruct (f b) as [y|e0] eqn:Eb; [|eexists; reflexivity].
  cbn [bind]. destruct Hin as [->|Hin]; [congruence|].
  destruct (IH Hin Ha) as [e' ->]. eexists. reflexivity.
Qed.

(** X19. On a temporal column [apply] hands every cell to the lambda. So
    when the table has rows, the column has no null, [strftime] formats
    every value and the identifier of the column can be compared with
    text, [split_on_converted_datetime] returns the rows whose formatted
    value passes that comparison; and when some row has a null in the
    column, the lambda is called on [None], which has no [strftime], and
    the call ends in a [PanicException], whatever the identifiers. *)
Theorem converted_datetime_split_keeps_rows_formatted_alike
    (env : PyEnv) (df : DataFrame) (column_name : string)
    (batch_identifiers : batch_identifiers_t) (date_format_string : string)
    (i : nat) (t : dtype) :
  find_column (schema df) column_name 0 = Some (i, t) ->
  temporal t = true ->
  (forall v test (formatted : scalar -> string),
     rows df <> [] ->
     (forall r, In r (rows df) ->
        exists x, nth i r None = Some x
                  /\ strftime x date_format_string = Ok (formatted x)) ->
     getitem batch_identifiers column_name = Ok v ->
     comparand Utf8 v = Ok test ->
     split_on_converted_datetime df column_name batch_identifiers
       date_format_string
     = Ok (mkDataFrame (schema df)
             (filter (fun r => match nth i r None with
                               | Some x => test (SStr (formatted x))
                               | None => false
                               end) (rows df))))
  /\ ((exists r, In r (rows df) /\ nth i r None = None) ->
      split_on_converted_datetime df column_name batch_identifiers
        date_format_string
      = Raise PanicException).
Proof.
  intros Hcol Ht. split.
  - intros v test formatted Hrows Hfmt Hid Hcmp.
    unfold split_on_converted_datetime, df_column. rewrite Hcol.
    cbn [bind]. unfold series_apply. cbn [s_dtype s_values]. rewrite Ht.
    rewrite traverse_map.
    rewrite (traverse_pure _
               (fun r => SStr (match nth i r None with
                               | Some x => formatted x
                               | None => EmptyString
                               end))).
    + destruct (map (fun r => nth i r None) (rows df)) eqn:Hc.
      { apply map_eq_nil in Hc. contradiction. }
      clear Hc.
      cbn [bind]. rewrite Hid. cbn [bind]. unfold series_eq.
      cbn [s_dtype s_values]. rewrite Hcmp. cbn [bind]. unfold df_filter.
      rewrite !map_map.
      rewrite (select_map
                 (fun r => option_map test
                             (Some (SStr match nth i r None with
                                         | Some x => formatted x
                                         | None => EmptyString
                                         end))) (rows df)).
      do 2 f_equal. apply filter_ext_in. intros r Hr.
      destruct (Hfmt r Hr) as [x [-> _]]. cbn [option_map is_true].
      now destruct (test _).
    + intros r Hr. destruct (Hfmt r Hr) as [x [-> Hx]].
      cbn [py_strftime]. now rewrite Hx.
  - intros [r [Hr Hnull]].
    unfold split_on_converted_datetime, df_column. rewrite Hcol.
    cbn [bind]. unfold series_apply. cbn [s_dtype s_values]. rewrite Ht.
    destruct (traverse_fault
                (fun x => s <- py_strftime x date_format_string ;;
                          Ok (SStr s))
                (map (fun r => nth i r None) (rows df)) None AttributeError)
      as [e' He']; [|reflexivity|].
    + apply in_map_iff. now exists r.
    + rewrite He'.
      destruct (map (fun r => nth i r None) (rows df)) eqn:Hc;
        [|reflexivity].
      apply map_eq_nil in Hc. rewrite Hc in Hr. destruct Hr.
Qed.

Lemma converted_datetime_witness :
  split_on_converted_datetime (env := sample_env) two_dates "date"
    [("date", PStr "2022-05-01")] "%Y-%m-%d"
  = Ok (mkDataFrame [("id", Int64); ("date", Date)]
          [[Some (SInt 2); Some (SDate (mkDate 2022 5 1))]])
  /\ split_on_converted_datetime (env := sample_env)
       (mkDataFrame [("date", Date)]
          [[Some (SDate (mkDate 2021 5 1))]; [None]])
       "date" [("date", PStr "2021-05-01")] "%Y-%m-%d"
     = Raise PanicException.
Proof.
  split.
  - assert (Hfmt : forall r,
               In r (rows two_dates) ->
               exists x, nth 1 r None = Some x
                         /\ strftime (PyEnv := sample_env) x "%Y-%m-%d"
                            = Ok (match x with
                                  | SDate d => str_of_date d
                                  | _ => EmptyString
                                  end)).
    { intros r Hr. simpl in Hr.
      destruct Hr as [<-|[<-|[]]]; eexists; split; reflexivity. }
    exact (proj1 (converted_datetime_split_keeps_rows_formatted_alike
                    sample_env two_dates "date" [("date", PStr "2022-05-01")]
                    "%Y-%m-%d" 1%nat Date eq_refl eq_refl)
             (PStr "2022-05-01") (equals (PStr "2022-05-01")) _
             ltac:(discriminate) Hfmt eq_refl eq_refl).
  - apply (proj2 (converted_datetime_split_keeps_rows_formatted_alike
                    sample_env
                    (mkDataFrame [("date", Date)]
                       [[Some (SDate (mkDate 2021 5 1))]; [None]])
                    "date" [("date", PStr "2021-05-01")]
                    "%Y-%m-%d" 0%nat Date eq_refl eq_refl)).
    exists [None]. split; [right; now left | reflexivity].
Defined.
